(** * Token issuance and verification with role-integrity protection

    A shallow embedding of [app/core/security.py] and of
    [AuthenticationUseCase.authenticate]
    ([app/domain/use_cases/authentication_use_case.py]), together with
    the properties of the security module.

    Python dictionaries are finite maps ([gmap]) from strings to JSON
    values; exceptions are an explicit [outcome]; the wall clock, the
    random token identifier and the credential store are arguments.
    The primitives of the third-party packages ([hashlib], [passlib],
    [jose]) are interfaces (type classes): the development never looks
    inside a digest or a signature. *)

From Stdlib Require Import ZArith String Ascii List Bool Lia.
From stdpp Require Import base option list gmap strings.

Local Open Scope Z_scope.
Local Open Scope string_scope.

(** ** Python values and exceptions *)

(** The values a claims dictionary holds: [None], a [str], an [int], a
    [list] of such values, and (before encoding only) a [datetime],
    counted in microseconds since the epoch. *)
#[warnings="-register-all"]
Inductive value : Type :=
  | VNone
  | VStr (s : string)
  | VInt (n : Z)
  | VDate (us : Z)
  | VList (items : list value).

(** [a == b] on values. *)
Fixpoint value_eqb (a b : value) : bool :=
  match a, b with
  | VNone, VNone => true
  | VStr s, VStr s' => String.eqb s s'
  | VInt n, VInt n' => Z.eqb n n'
  | VDate us, VDate us' => Z.eqb us us'
  | VList l, VList l' =>
      (fix items_eqb (l l' : list value) : bool :=
         match l, l' with
         | [], [] => true
         | x :: l, x' :: l' => value_eqb x x' && items_eqb l l'
         | _, _ => false
         end) l l'
  | _, _ => false
  end.

Lemma value_eqb_eq (a b : value) : value_eqb a b = true <-> a = b.
Proof.
  revert a b. fix IH 1. intros a b.
  destruct a as [| s | n | us | l], b as [| s' | n' | us' | l']; cbn [value_eqb];
    try (split; [discriminate | intros; discriminate]).
  - split; reflexivity.
  - rewrite String.eqb_eq. split; congruence.
  - rewrite Z.eqb_eq. split; congruence.
  - rewrite Z.eqb_eq. split; congruence.
  - revert l'. induction l as [| x l IHl]; intros [| x' l'];
      try (split; [discriminate | intros; discriminate]).
    + split; reflexivity.
    + rewrite andb_true_iff, IH, IHl. split.
      * intros [-> Heq]. injection Heq as ->. reflexivity.
      * intros Heq. injection Heq as -> ->. auto.
Qed.

#[global] Instance value_eq_dec : EqDecision value.
Proof.
  intros a b. destruct (value_eqb a b) eqn:Heq.
  - left. apply value_eqb_eq. exact Heq.
  - right. intros Hab. apply value_eqb_eq in Hab. congruence.
Defined.

(** Python truthiness, as used by [if not x]. *)
Definition truthy (v : value) : bool :=
  match v with
  | VNone => false
  | VStr s => negb (String.eqb s "")
  | VInt n => negb (Z.eqb n 0)
  | VDate _ => true
  | VList l => match l with [] => false | _ => true end
  end.

(** A claims dictionary. *)
Abbreviation payload := (gmap string value).

(** [d.get(k)]: the value, or [None] when the key is absent. *)
Definition dict_get (d : payload) (k : string) : value :=
  default VNone (d !! k).

(** [fastapi.HTTPException]. *)
Record HTTPException : Type := mkHTTPException {
  status_code : Z;
  detail : string
}.

#[global] Instance HTTPException_eq_dec : EqDecision HTTPException.
Proof. solve_decision. Defined.

Definition HTTP_401_UNAUTHORIZED : Z := 401.
Definition HTTP_500_INTERNAL_SERVER_ERROR : Z := 500.

(** What a call does: return, raise an [HTTPException], raise a
    [jose.JWTError] (with its message), or raise another Python
    exception, named by its class. *)
Inductive outcome (A : Type) : Type :=
  | Return (a : A)
  | RaiseHTTP (e : HTTPException)
  | RaiseJWT (msg : string)
  | RaisePy (cls : string).

Arguments Return {A} a.
Arguments RaiseHTTP {A} e.
Arguments RaiseJWT {A} msg.
Arguments RaisePy {A} cls.

Definition bind {A B : Type} (m : outcome A) (k : A -> outcome B) : outcome B :=
  match m with
  | Return a => k a
  | RaiseHTTP e => RaiseHTTP e
  | RaiseJWT msg => RaiseJWT msg
  | RaisePy cls => RaisePy cls
  end.

Notation "'do' x <- m ; k" := (bind m (fun x => k))
  (at level 10, x name, m at level 100, k at level 200).
Notation "'check' m ; k" := (bind m (fun _ => k))
  (at level 10, m at level 100, k at level 200).

(** [try: ... except JWTError as e: raise HTTPException(401, f"Invalid token: {str(e)}")] *)
Definition except_JWTError {A : Type} (m : outcome A) : outcome A :=
  match m with
  | RaiseJWT msg =>
      RaiseHTTP (mkHTTPException HTTP_401_UNAUTHORIZED ("Invalid token: " ++ msg))
  | _ => m
  end.

(** ** Interfaces of the third-party primitives *)

(** A string of ASCII characters only. *)
Definition is_ascii (s : string) : bool :=
  forallb (fun c => Nat.ltb (nat_of_ascii c) 128) (list_ascii_of_string s).

(** [hashlib.sha256(s.encode()).hexdigest()]: a non-empty string of
    hexadecimal digits. *)
Class Hashlib : Type := {
  sha256_hexdigest : string -> string;
  sha256_hexdigest_ascii : forall s, is_ascii (sha256_hexdigest s) = true;
  sha256_hexdigest_nonempty : forall s, sha256_hexdigest s <> ""
}.

(** A string that holds a NUL character. *)
Definition has_NUL (s : string) : bool :=
  existsb (fun c => Ascii.eqb c Ascii.zero) (list_ascii_of_string s).

(** A string that starts as a [bcrypt] hash of the variant [2b] does
    and is not one: after ["$2b$"] come two digits of cost, a ["$"],
    22 characters of salt and 31 of digest, 60 characters in all. *)
Definition malformed_bcrypt (hash : string) : bool :=
  String.prefix "$2b$" hash && negb (Nat.eqb (String.length hash) 60).

(** [passlib]'s [CryptContext(schemes=["bcrypt"])].  [verify(secret,
    hash)] returns a [bool] or raises; it raises no [HTTPException] and
    no [JWTError].  On a hash that is malformed, and on a secret that
    holds a NUL character, it raises a [ValueError] (the class named
    here stands for the subclasses [passlib] derives from it as
    well). *)
Class CryptContext : Type := {
  pwd_context_hash : string -> string;
  pwd_context_verify : string -> string -> outcome bool;
  pwd_context_verify_outcome : forall secret hash,
    (exists b, pwd_context_verify secret hash = Return b) \/
    (exists cls, pwd_context_verify secret hash = RaisePy cls);
  pwd_context_verify_malformed : forall secret hash,
    malformed_bcrypt hash = true ->
    pwd_context_verify secret hash = RaisePy "ValueError";
  pwd_context_verify_NUL : forall secret hash,
    has_NUL secret = true ->
    pwd_context_verify secret hash = RaisePy "ValueError"
}.

(** What [jose] computes that this development does not look into:
    which algorithm names are supported, whether a key can be used with
    an algorithm, the signature of a claims set under a key and an
    algorithm, whether a signature verifies, and Python's [int()] on a
    string.  A signature made with a usable key verifies with it. *)
Class Jose : Type := {
  jws_supported : string -> bool;
  jws_usable : string -> string -> bool;
  jws_signature : string -> string -> payload -> string;
  jws_sig_matches : string -> string -> payload -> string -> bool;
  int_of_str : string -> option Z;
  jws_supported_nonempty : jws_supported "" = false;
  jws_usable_supported :
    forall key alg, jws_usable key alg = true -> jws_supported alg = true;
  jws_sig_matches_signature :
    forall key alg claims, jws_usable key alg = true ->
      jws_sig_matches key alg claims (jws_signature key alg claims) = true
}.

(** ** Settings ([app/core/config.py]) *)

Record Settings : Type := mkSettings {
  secret_key : string;
  algorithm : string;
  access_token_expire_minutes : Z
}.

Definition default_settings : Settings :=
  mkSettings "your-secret-key-here-change-in-production" "HS256" 30.

(** ** The [jose] package: compact signed tokens

    The package is not part of the repository; [jwt.encode] and
    [jwt.decode] are written out after its [jwt] and [jws] modules, as
    far as [create_access_token] and [verify_token] depend on them.  A
    token string is modelled by what it parses to: the algorithm named
    in its header, its claims and its signature.  Strings that do not
    parse are outside the model. *)

Record token : Type := mkToken {
  header_alg : string;
  claims : payload;
  signature : string
}.

(** [timegm(dt.utctimetuple())]: whole seconds, microseconds dropped. *)
Definition timegm (us : Z) : Z := us / 1000000.

Definition time_claim_to_int (claims : payload) (k : string) : payload :=
  match claims !! k with
  | Some (VDate us) => <[k := VInt (timegm us)]> claims
  | _ => claims
  end.

(** What [json.dumps] accepts: not a [datetime], at any depth. *)
Fixpoint json_serializable (v : value) : bool :=
  match v with
  | VDate _ => false
  | VList l => forallb json_serializable l
  | _ => true
  end.

Section jose.
Context {jose_impl : Jose}.

(** [jwt.encode(claims, key, algorithm)]: [exp], [iat] and [nbf] given
    as [datetime] become integers; the algorithm must be supported, the
    claims JSON, and the key usable with the algorithm. *)
Definition jwt_encode (claims : payload) (key alg : string) : outcome token :=
  let claims := time_claim_to_int claims "exp" in
  let claims := time_claim_to_int claims "iat" in
  let claims := time_claim_to_int claims "nbf" in
  if negb (jws_supported alg) then RaisePy "JWSError"
  else if negb (bool_decide (map_Forall (fun _ v => json_serializable v = true) claims))
  then RaisePy "TypeError"
  else if negb (jws_usable key alg) then RaisePy "JWSError"
  else Return (mkToken alg claims (jws_signature key alg claims)).

(** [jws.verify]: the header's algorithm must be one of [algorithms],
    the key usable with it (building the key raises [JWKError]
    otherwise), and the signature must verify. *)
Definition jws_verify (t : token) (key : string) (algorithms : list string)
  : outcome payload :=
  if String.eqb (header_alg t) "" then
    RaiseJWT "No algorithm was specified in the JWS header."
  else if negb (bool_decide (header_alg t ∈ algorithms)) then
    RaiseJWT "The specified alg value is not allowed"
  else if negb (jws_usable key (header_alg t)) then RaisePy "JWKError"
  else if jws_sig_matches key (header_alg t) (claims t) (signature t) then
    Return (claims t)
  else RaiseJWT "Signature verification failed.".

(** Python's [int(v)] inside [try: ... except ValueError], with the
    message of the claims error raised in its place. *)
Definition int_claim (v : value) (msg : string) : outcome Z :=
  match v with
  | VInt n => Return n
  | VStr s => match int_of_str s with Some n => Return n | None => RaiseJWT msg end
  | _ => RaisePy "TypeError"
  end.

Definition _validate_iat (claims : payload) : outcome unit :=
  match claims !! "iat" with
  | None => Return tt
  | Some v => check int_claim v "Issued At claim (iat) must be an integer."; Return tt
  end.

Definition _validate_nbf (claims : payload) (now : Z) : outcome unit :=
  match claims !! "nbf" with
  | None => Return tt
  | Some v =>
      do nbf <- int_claim v "Not Before claim (nbf) must be an integer.";
      if Z.ltb (timegm now) nbf then RaiseJWT "The token is not yet valid (nbf)"
      else Return tt
  end.

Definition _validate_exp (claims : payload) (now : Z) : outcome unit :=
  match claims !! "exp" with
  | None => Return tt
  | Some v =>
      do exp <- int_claim v "Expiration Time claim (exp) must be an integer.";
      if Z.ltb exp (timegm now) then RaiseJWT "Signature has expired."
      else Return tt
  end.

(** The audience claim is a string or a list of strings, and
    [audience] must be it or in it. *)
Definition _validate_aud (claims : payload) (audience : string) : outcome unit :=
  match claims !! "aud" with
  | None => Return tt
  | Some (VStr a) =>
      if String.eqb audience a then Return tt else RaiseJWT "Invalid audience"
  | Some (VList audience_claims) =>
      if negb (forallb (fun c => match c with VStr _ => true | _ => false end)
                 audience_claims)
      then RaiseJWT "Invalid claim format in token"
      else if bool_decide (VStr audience ∈ audience_claims) then Return tt
      else RaiseJWT "Invalid audience"
  | Some _ => RaiseJWT "Invalid claim format in token"
  end.

Definition _validate_iss (claims : payload) (issuer : string) : outcome unit :=
  if bool_decide (dict_get claims "iss" = VStr issuer) then Return tt
  else RaiseJWT "Invalid issuer".

Definition _validate_sub (claims : payload) : outcome unit :=
  match claims !! "sub" with
  | None | Some (VStr _) => Return tt
  | Some _ => RaiseJWT "Subject must be a string."
  end.

Definition _validate_jti (claims : payload) : outcome unit :=
  match claims !! "jti" with
  | None | Some (VStr _) => Return tt
  | Some _ => RaiseJWT "JWT ID must be a string."
  end.

Definition _validate_at_hash (claims : payload) : outcome unit :=
  match claims !! "at_hash" with
  | None => Return tt
  | Some _ => RaiseJWT "No access_token provided to compare against at_hash claim."
  end.

Definition _validate_claims (claims : payload) (now : Z) (audience issuer : string)
  : outcome unit :=
  check _validate_iat claims;
  check _validate_nbf claims now;
  check _validate_exp claims now;
  check _validate_aud claims audience;
  check _validate_iss claims issuer;
  check _validate_sub claims;
  check _validate_jti claims;
  _validate_at_hash claims.

(** [jwt.decode(token, key, algorithms=..., audience=..., issuer=...)],
    at clock reading [now]. *)
Definition jwt_decode (t : token) (key : string) (algorithms : list string)
    (audience issuer : string) (now : Z) : outcome payload :=
  do payload <- jws_verify t key algorithms;
  check _validate_claims payload now audience issuer;
  Return payload.
End jose.

(** ** The domain entity ([app/domain/entities/user.py]) *)

Module entities.
Inductive UserRole : Type := USER | ADMIN.

(** [UserRole.value] *)
Definition UserRole_value (r : UserRole) : string :=
  match r with USER => "user" | ADMIN => "admin" end.

Record User : Type := mkUser {
  username : string;
  role : UserRole;
  is_active : bool;
  password_hash : option string
}.

(** [a == b] on [UserRole] members. *)
Definition UserRole_eqb (a b : UserRole) : bool :=
  match a, b with
  | USER, USER | ADMIN, ADMIN => true
  | _, _ => false
  end.

Definition has_role (self : User) (required_role : UserRole) : bool :=
  UserRole_eqb (role self) required_role.

Definition is_admin (self : User) : bool := UserRole_eqb (role self) ADMIN.

Definition is_user (self : User) : bool := UserRole_eqb (role self) USER.

Definition can_access_admin_resources (self : User) : bool :=
  is_active self && is_admin self.

Definition can_access_user_resources (self : User) : bool :=
  is_active self && (is_user self || is_admin self).
End entities.

(** ** The security module ([app/core/security.py]) *)

(** A record of [fake_users_db]. *)
Record db_user : Type := mkDbUser {
  username : string;
  role : string;
  password_hash : string;
  is_active : bool;
  role_hash : string
}.

(** [user["username"]], usable where [username] names an argument. *)
Definition user_get_username (user : db_user) : string := username user.

(** The credential store: a dictionary keyed by user name.  The module
    holds it in a global; here it is an argument, so that a store that
    was modified can be spoken about. *)
Abbreviation users_db := (gmap string db_user).

(** The dictionary [authenticate_user] and [get_user_from_token] return. *)
Record identity : Type := mkIdentity {
  id_username : string;
  id_role : string;
  id_is_active : bool
}.

(** A call of [pwd_context.verify(secret, hash)]. *)
Definition verify_call : Type := (string * string)%type.

Definition dummy_hash : string := "$2b$12$dummy.hash.to.prevent.timing.attacks".

(** [d.get(k)] on a dictionary keyed by strings, for any value [k]: a
    list is not hashable and the lookup raises [TypeError]; any other
    value that is not a string is not a key. *)
Definition get_by_value {A : Type} (d : gmap string A) (k : value) : outcome (option A) :=
  match k with
  | VStr s => Return (d !! s)
  | VList _ => RaisePy "TypeError"
  | _ => Return None
  end.

Section security.
Context {hashlib_impl : Hashlib} {pwd_context : CryptContext} {jose_impl : Jose}.
Variable settings : Settings.

Definition fake_users_db : users_db :=
  <["admin" := mkDbUser "admin" "admin" (pwd_context_hash "JKSipm0YH") true
                        (sha256_hexdigest "admin")]>
  (<["usuario" := mkDbUser "usuario" "user" (pwd_context_hash "L0XuwPOdS5U") true
                           (sha256_hexdigest "user")]> ∅).

Definition VALID_ROLES : gmap string string :=
  <["admin" := sha256_hexdigest "admin"]>
  (<["user" := sha256_hexdigest "user"]> ∅).

Definition verify_password (plain_password hashed_password : string) : outcome bool :=
  pwd_context_verify plain_password hashed_password.

Definition get_password_hash (password : string) : string :=
  pwd_context_hash password.

(** [secrets.compare_digest(a, b)] with [a] a [str]: [b] must be a
    [str] too, and both ASCII; otherwise [TypeError]. *)
Definition compare_digest (a : string) (b : value) : outcome bool :=
  match b with
  | VStr s =>
      if is_ascii a && is_ascii s then Return (String.eqb a s)
      else RaisePy "TypeError"
  | _ => RaisePy "TypeError"
  end.

(** [expected_hash is not None and secrets.compare_digest(...)]: the
    comparison is not evaluated when the role is not a key. *)
Definition validate_role (role role_hash : value) : outcome bool :=
  do expected_hash <- get_by_value VALID_ROLES role;
  match expected_hash with
  | None => Return false
  | Some h => compare_digest h role_hash
  end.

Definition security_violation : HTTPException :=
  mkHTTPException HTTP_500_INTERNAL_SERVER_ERROR "Security violation detected".

(** [authenticate_user], with the calls it makes to
    [pwd_context.verify], in order.  What the call on the placeholder
    returns is dropped; what it raises is not. *)
Definition authenticate_user (db : users_db) (username password : string)
  : list verify_call * outcome (option identity) :=
  match db !! username with
  | None =>
      ([(password, dummy_hash)],
       check pwd_context_verify password dummy_hash;
       Return None)
  | Some user =>
      if negb (is_active user) then ([], Return None)
      else
        ([(password, password_hash user)],
         do verified <- verify_password password (password_hash user);
         if negb verified then Return None
         else
           do ok <- validate_role (VStr (role user)) (VStr (role_hash user));
           if negb ok then RaiseHTTP security_violation
           else Return (Some (mkIdentity (user_get_username user) (role user)
                                         (is_active user))))
  end.
End security.

Section security_tokens.
Context {hashlib_impl : Hashlib} {pwd_context : CryptContext} {jose_impl : Jose}.
Variable settings : Settings.

(** [timedelta(minutes=m)], in microseconds. *)
Definition timedelta_minutes (m : Z) : Z := m * 60 * 1000000.

(** [create_access_token(data, expires_delta)], at clock reading [now]
    and with [jti] the string [secrets.token_urlsafe(32)] draws.  A
    zero [expires_delta] is falsy, and the default applies.  The expiry
    is the sum in [Z]: the definition is the code wherever that sum is
    a [datetime] (see [expiry_representable] below). *)
Definition create_access_token (data : payload) (expires_delta : option Z)
    (now : Z) (jti : string) : outcome token :=
  let to_encode := data in
  let expire :=
    match expires_delta with
    | Some d => if negb (Z.eqb d 0) then now + d
                else now + timedelta_minutes (access_token_expire_minutes settings)
    | None => now + timedelta_minutes (access_token_expire_minutes settings)
    end in
  let to_encode :=
    <["aud" := VStr "teste-tivit-client"]>
    (<["iss" := VStr "teste-tivit-api"]>
    (<["jti" := VStr jti]>
    (<["nbf" := VDate now]>
    (<["iat" := VDate now]>
    (<["exp" := VDate expire]> to_encode))))) in
  do to_encode <-
    match to_encode !! "role" with
    | None => Return to_encode
    | Some (VStr r) => Return (<["role_hash" := VStr (sha256_hexdigest r)]> to_encode)
    | Some _ => RaisePy "AttributeError"
    end;
  jwt_encode to_encode (secret_key settings) (algorithm settings).

Definition missing_subject : HTTPException :=
  mkHTTPException HTTP_401_UNAUTHORIZED "Invalid token: missing subject".
Definition missing_role_information : HTTPException :=
  mkHTTPException HTTP_401_UNAUTHORIZED "Invalid token: missing role information".
Definition role_tampering_detected : HTTPException :=
  mkHTTPException HTTP_401_UNAUTHORIZED "Invalid token: role tampering detected".
Definition user_not_found_or_inactive : HTTPException :=
  mkHTTPException HTTP_401_UNAUTHORIZED "User not found or inactive".

(** The decoding step of [verify_token]. *)
Definition decode (t : token) (now : Z) : outcome payload :=
  jwt_decode t (secret_key settings) [algorithm settings]
             "teste-tivit-client" "teste-tivit-api" now.

(** [verify_token(token)], against the store [db] at clock reading
    [now]. *)
Definition verify_token (db : users_db) (now : Z) (t : token) : outcome payload :=
  except_JWTError (
    do payload <- decode t now;
    let username := dict_get payload "sub" in
    let role := dict_get payload "role" in
    let role_hash := dict_get payload "role_hash" in
    if negb (truthy username) then RaiseHTTP missing_subject
    else if negb (truthy role) || negb (truthy role_hash) then
      RaiseHTTP missing_role_information
    else
      do ok <- validate_role role role_hash;
      if negb ok then RaiseHTTP role_tampering_detected
      else
        do user <- get_by_value db username;
        match user with
        | None => RaiseHTTP user_not_found_or_inactive
        | Some user =>
            if negb (is_active user) then RaiseHTTP user_not_found_or_inactive
            else Return payload
        end).
End security_tokens.

(** ** The authentication use case
    ([app/domain/use_cases/authentication_use_case.py]) *)

(** The dictionary [AuthenticationUseCase.authenticate] returns. *)
Record AuthResult : Type := mkAuthResult {
  access_token : token;
  token_type : string;
  user : identity
}.

(** The state of a [FakeUserRepository]: its [_users] dictionary. *)
Abbreviation user_repository := (gmap string entities.User).

Definition get_by_username (repo : user_repository) (username : string)
  : option entities.User := repo !! username.

Section use_case.
Context {hashlib_impl : Hashlib} {pwd_context : CryptContext} {jose_impl : Jose}.
Variable settings : Settings.

(** [FakeUserRepository.__init__] *)
Definition FakeUserRepository : user_repository :=
  <["admin" := entities.mkUser "admin" entities.ADMIN true
                 (Some (get_password_hash "JKSipm0YH"))]>
  (<["usuario" := entities.mkUser "usuario" entities.USER true
                    (Some (get_password_hash "L0XuwPOdS5U"))]> ∅).

(** The [token_data] dictionary of [authenticate]. *)
Definition token_data (sub role : string) : payload :=
  <["role" := VStr role]> (<["sub" := VStr sub]> ∅).

(** [AuthenticationUseCase.authenticate], over the repository the use
    case was built with. *)
Definition authenticate (repo : user_repository) (username password : string)
    (now : Z) (jti : string) : outcome (option AuthResult) :=
  match get_by_username repo username with
  | None => Return None
  | Some user =>
      if negb (entities.is_active user) then Return None
      else
        (* [not user.password_hash]: [None] or the empty string *)
        match entities.password_hash user with
        | None => Return None
        | Some hashed =>
            if String.eqb hashed "" then Return None
            else
              do verified <- verify_password password hashed;
              if negb verified then Return None
              else
                let role_value := entities.UserRole_value (entities.role user) in
                do access_token <-
                  create_access_token settings
                    (token_data (entities.username user) role_value) None now jti;
                Return (Some (mkAuthResult access_token "bearer"
                                (mkIdentity (entities.username user) role_value
                                            (entities.is_active user))))
        end
  end.
End use_case.

(** ** The claims of a minted token, written out *)

Section minted.
Context {hashlib_impl : Hashlib}.
Variable settings : Settings.

(** The claims [create_access_token] signs for [token_data sub role]
    at clock reading [now], with the default lifetime. *)
Definition minted_claims (sub role : string) (now : Z) (jti : string) : payload :=
  <["sub" := VStr sub]>
  (<["role" := VStr role]>
  (<["role_hash" := VStr (sha256_hexdigest role)]>
  (<["exp" := VInt (timegm now + access_token_expire_minutes settings * 60)]>
  (<["iat" := VInt (timegm now)]>
  (<["nbf" := VInt (timegm now)]>
  (<["jti" := VStr jti]>
  (<["iss" := VStr "teste-tivit-api"]>
  (<["aud" := VStr "teste-tivit-client"]> ∅)))))))).

(** The nine claim names of the wire format. *)
Definition CLAIM_NAMES : gset string :=
  {[ "sub"; "role"; "role_hash"; "exp"; "iat"; "nbf"; "jti"; "iss"; "aud" ]}.
End minted.

(** The token is validly signed for the configuration: its header names
    the configured algorithm, and its signature verifies under the
    configured key. *)
Definition validly_signed {jose_impl : Jose} (settings : Settings) (t : token) : Prop :=
  jws_verify t (secret_key settings) [algorithm settings] = Return (claims t).

(** A time claim that is absent or an integer. *)
(** The configured key can be used with the configured algorithm. *)
Definition signing_configured {jose_impl : Jose} (settings : Settings) : Prop :=
  jws_usable (secret_key settings) (algorithm settings) = true.

Definition numeric_or_absent (claims : payload) (k : string) : Prop :=
  claims !! k = None \/ exists n, claims !! k = Some (VInt n).

(** The checks [verify_token] applies to the claims once [jwt.decode]
    has returned them: the body of its [try] block after the decoding.
    Used to state what [verify_token] does on a token that decodes. *)
Definition claims_checks {hashlib_impl : Hashlib} (db : users_db) (payload : gmap string value)
  : outcome (gmap string value) :=
  let username := dict_get payload "sub" in
  let role := dict_get payload "role" in
  let role_hash := dict_get payload "role_hash" in
  if negb (truthy username) then RaiseHTTP missing_subject
  else if negb (truthy role) || negb (truthy role_hash) then
    RaiseHTTP missing_role_information
  else
    do ok <- validate_role role role_hash;
    if negb ok then RaiseHTTP role_tampering_detected
    else
      do user <- get_by_value db username;
      match user with
      | None => RaiseHTTP user_not_found_or_inactive
      | Some user =>
          if negb (is_active user) then RaiseHTTP user_not_found_or_inactive
          else Return payload
      end.

(** The repository entry that holds the same data as a store record
    whose role is the value of [r]: the entity has no field for the
    role tag. *)
Definition entity_of (user : db_user) (r : entities.UserRole) : entities.User :=
  entities.mkUser (user_get_username user) r (is_active user) (Some (password_hash user)).

(** ** The failures of verification, by kind *)

Definition signature_has_expired : HTTPException :=
  mkHTTPException HTTP_401_UNAUTHORIZED "Invalid token: Signature has expired.".
Definition token_not_yet_valid : HTTPException :=
  mkHTTPException HTTP_401_UNAUTHORIZED "Invalid token: The token is not yet valid (nbf)".

(** The time-window failure: expired, or not yet valid. *)
Definition ExpiredOrNotYetValid (e : HTTPException) : Prop :=
  e = signature_has_expired \/ e = token_not_yet_valid.

(** The malformed-token failure: no subject, or no role information. *)
Definition MalformedToken (e : HTTPException) : Prop :=
  e = missing_subject \/ e = missing_role_information.

(** A claim that is missing, [null] or the empty string. *)
Definition missing_or_empty (claims : payload) (k : string) : Prop :=
  claims !! k = None \/ claims !! k = Some VNone \/ claims !! k = Some (VStr "").

(** The user is absent from the store, or inactive. *)
Definition absent_or_inactive (db : users_db) (username : string) : Prop :=
  db !! username = None \/
  exists user, db !! username = Some user /\ is_active user = false.

(** The lifetime [create_access_token] gives a token, in microseconds:
    [expires_delta] when it is given and not zero, the configured
    minutes otherwise. *)
Definition token_lifetime (settings : Settings) (expires_delta : option Z) : Z :=
  match expires_delta with
  | Some d => if Z.eqb d 0
              then timedelta_minutes (access_token_expire_minutes settings)
              else d
  | None => timedelta_minutes (access_token_expire_minutes settings)
  end.

(** The range of [datetime] and of [timedelta], in microseconds:
    [datetime.min] is the first instant of year 1, [datetime.max] the
    last of year 9999, and a [timedelta] spans 999999999 days either
    way. *)
Definition datetime_min : Z := -62135596800000000.
Definition datetime_max : Z := 253402300799999999.
Definition timedelta_min : Z := -86399999913600000000.
Definition timedelta_max : Z := 86399999999999999999.

(** The expiry [create_access_token] computes exists: the lifetime is a
    [timedelta], and the clock reading plus the lifetime is a
    [datetime].  Otherwise line 91 or 93 of the code raises
    [OverflowError]; [create_access_token] above takes the sum in [Z]
    and is the code where the expiry exists. *)
Definition expiry_representable (settings : Settings) (expires_delta : option Z)
    (now : Z) : Prop :=
  timedelta_min <= token_lifetime settings expires_delta <= timedelta_max /\
  datetime_min <= now + token_lifetime settings expires_delta <= datetime_max.

(** ** The rest of the security module *)

Definition user_not_found : HTTPException :=
  mkHTTPException HTTP_401_UNAUTHORIZED "User not found".

(** [get_user_from_token(payload)], against the store [db]. *)
Definition get_user_from_token (db : users_db) (payload : gmap string value)
  : outcome identity :=
  let username := dict_get payload "sub" in
  do user <- get_by_value db username;
  match user with
  | None => RaiseHTTP user_not_found
  | Some user =>
      Return (mkIdentity (user_get_username user) (role user) (is_active user))
  end.

(** [AuthenticationUseCase.validate_user_access] *)
Definition validate_user_access (user : entities.User)
    (required_role : entities.UserRole) : bool :=
  if negb (entities.is_active user) then false
  else if entities.UserRole_eqb required_role entities.ADMIN then
    entities.can_access_admin_resources user
  else if entities.UserRole_eqb required_role entities.USER then
    entities.can_access_user_resources user
  else false.

(** ** The in-memory repository
    ([app/infrastructure/repositories/fake_user_repository.py])

    Each method takes the [_users] dictionary and returns it, changed or
    not, with what the method returns or raises. *)
Module fake_user_repository.
(** [exists(username)] *)
Definition exists_ (users : user_repository) (username : string) : bool :=
  bool_decide (is_Some (users !! username)).

(** [create(user)] *)
Definition create (users : user_repository) (user : entities.User)
  : user_repository * outcome entities.User :=
  if exists_ users (entities.username user) then (users, RaisePy "ValueError")
  else (<[entities.username user := user]> users, Return user).

(** [update(user)] *)
Definition update (users : user_repository) (user : entities.User)
  : user_repository * outcome entities.User :=
  if negb (exists_ users (entities.username user)) then (users, RaisePy "ValueError")
  else (<[entities.username user := user]> users, Return user).

(** [delete(username)] *)
Definition delete (users : user_repository) (username : string)
  : user_repository * bool :=
  if bool_decide (is_Some (users !! username)) then (base.delete username users, true)
  else (users, false).

(** Every entry is stored under its own user name. *)
Definition keyed_by_username (users : user_repository) : Prop :=
  forall k user, users !! k = Some user -> entities.username user = k.
End fake_user_repository.

(** ** The route dependencies ([app/dependencies/auth.py])

    The functions are declared [async] but await nothing; [Depends]
    passes the result of one to the next, which is [bind] here. *)

Definition HTTP_403_FORBIDDEN : Z := 403.

Definition missing_username : HTTPException :=
  mkHTTPException HTTP_401_UNAUTHORIZED "Invalid token: missing username".
Definition user_account_inactive : HTTPException :=
  mkHTTPException HTTP_401_UNAUTHORIZED "User account is inactive".
Definition user_role_required : HTTPException :=
  mkHTTPException HTTP_403_FORBIDDEN
    "Access denied. User role required and account must be active.".
Definition admin_role_required : HTTPException :=
  mkHTTPException HTTP_403_FORBIDDEN
    "Access denied. Admin role required and account must be active.".
Definition account_inactive : HTTPException :=
  mkHTTPException HTTP_403_FORBIDDEN "Access denied. Account is inactive.".

Section dependencies.
Context {hashlib_impl : Hashlib} {pwd_context : CryptContext} {jose_impl : Jose}.
Variable settings : Settings.

(** [get_current_user(credentials)]: [t] is [credentials.credentials],
    [db] the store of the security module, [repo] the repository
    singleton. *)
Definition get_current_user (db : users_db) (repo : user_repository) (now : Z)
    (t : token) : outcome entities.User :=
  do payload <- verify_token settings db now t;
  let username := dict_get payload "sub" in
  if negb (truthy username) then RaiseHTTP missing_username
  else
    (* [_user_repository.get_by_username(username)] *)
    do user <- get_by_value repo username;
    match user with
    | None => RaiseHTTP user_not_found
    | Some user =>
        if negb (entities.is_active user) then RaiseHTTP user_account_inactive
        else Return user
    end.

(** [get_current_user_role] *)
Definition get_current_user_role (current_user : entities.User)
  : outcome entities.UserRole :=
  Return (entities.role current_user).

Definition require_user_role (current_user : entities.User) : outcome entities.User :=
  if negb (entities.can_access_user_resources current_user)
  then RaiseHTTP user_role_required
  else Return current_user.

Definition require_admin_role (current_user : entities.User) : outcome entities.User :=
  if negb (entities.can_access_admin_resources current_user)
  then RaiseHTTP admin_role_required
  else Return current_user.

Definition require_active_user (current_user : entities.User) : outcome entities.User :=
  if negb (entities.is_active current_user) then RaiseHTTP account_inactive
  else Return current_user.
End dependencies.

(** ** The stored response ([app/domain/entities/external_data.py]) *)

Module external_data.
(** [ExternalApiData], over the type [J] of its [data] dictionary. *)
Record ExternalApiData (J : Type) : Type := mkExternalApiData {
  endpoint : string;
  data : J;
  status_code : Z;
  created_at : option Z;
  id : option Z
}.
Arguments endpoint {J} _.
Arguments data {J} _.
Arguments status_code {J} _.
Arguments created_at {J} _.
Arguments id {J} _.

Section methods.
Context {J : Type}.

Definition is_successful (self : ExternalApiData J) : bool :=
  Z.leb 200 (status_code self) && Z.ltb (status_code self) 300.

Definition is_client_error (self : ExternalApiData J) : bool :=
  Z.leb 400 (status_code self) && Z.ltb (status_code self) 500.

Definition is_server_error (self : ExternalApiData J) : bool :=
  Z.leb 500 (status_code self).

Definition get_error_type (self : ExternalApiData J) : string :=
  if is_successful self then "none"
  else if is_client_error self then "client_error"
  else if is_server_error self then "server_error"
  else "unknown".
End methods.
End external_data.

(** ** A concrete instance of the interfaces

    Stand-ins for the primitives, to run the definitions on concrete
    inputs: the digest is one of three fixed hexadecimal strings, the
    password hash the password written out in the shape of a [bcrypt]
    hash, the algorithms the three HMAC ones, the signature the key
    followed by the subject and role it signs. *)
Module Toy.
Definition hexdigest (s : string) : string :=
  if String.eqb s "user" then "04f8996da763b7a969b1028ee3007569eaf3a635486ddab211d512c85b9df8fb"
  else if String.eqb s "admin" then "8c6976e5b5410415bde908bd4dee15dfb167a9c873fc4bb8a81f6f2ab448a918"
  else "e3b0c44298fc1c149afbf4c8996fb92427ae41e4649b934ca495991b7852b855".

Lemma hexdigest_ascii s : is_ascii (hexdigest s) = true.
Proof. unfold hexdigest. repeat case_match; reflexivity. Qed.

Lemma hexdigest_nonempty s : hexdigest s <> "".
Proof. unfold hexdigest. repeat case_match; discriminate. Qed.

#[export] Instance hashlib : Hashlib :=
  {| sha256_hexdigest := hexdigest;
     sha256_hexdigest_ascii := hexdigest_ascii;
     sha256_hexdigest_nonempty := hexdigest_nonempty |}.

(** Sixty characters: the prefix, then the password cut or filled up
    to the 53 characters of salt and digest. *)
Definition bcrypt (p : string) : string :=
  "$2b$12$" ++
  String.substring 0 53 (p ++ ".....................................................").

Definition verify (secret hash : string) : outcome bool :=
  if has_NUL secret || malformed_bcrypt hash then RaisePy "ValueError"
  else Return (String.eqb hash (bcrypt secret)).

Lemma verify_outcome secret hash :
  (exists b, verify secret hash = Return b) \/
  (exists cls, verify secret hash = RaisePy cls).
Proof. unfold verify. destruct (has_NUL secret || malformed_bcrypt hash); eauto. Qed.

Lemma verify_malformed secret hash :
  malformed_bcrypt hash = true -> verify secret hash = RaisePy "ValueError".
Proof. intros Hm. unfold verify. rewrite Hm, orb_true_r. reflexivity. Qed.

Lemma verify_NUL secret hash :
  has_NUL secret = true -> verify secret hash = RaisePy "ValueError".
Proof. intros Hn. unfold verify. rewrite Hn. reflexivity. Qed.

#[export] Instance crypt_context : CryptContext :=
  {| pwd_context_hash := bcrypt;
     pwd_context_verify := verify;
     pwd_context_verify_outcome := verify_outcome;
     pwd_context_verify_malformed := verify_malformed;
     pwd_context_verify_NUL := verify_NUL |}.

Definition str_of (v : value) : string :=
  match v with VStr s => s | _ => "" end.

Definition hmac (alg : string) : bool :=
  String.eqb alg "HS256" || String.eqb alg "HS384" || String.eqb alg "HS512".

Definition sign (key alg : string) (claims : payload) : string :=
  key ++ "/" ++ alg ++ "/" ++ str_of (dict_get claims "sub")
      ++ "/" ++ str_of (dict_get claims "role").

#[export] Instance jose : Jose :=
  {| jws_supported := hmac;
     jws_usable := fun _ alg => hmac alg;
     jws_signature := sign;
     jws_sig_matches := fun key alg claims s => String.eqb s (sign key alg claims);
     int_of_str := fun _ => None;
     jws_supported_nonempty := eq_refl;
     jws_usable_supported := fun _ _ Hu => Hu;
     jws_sig_matches_signature := fun key alg claims _ => String.eqb_refl _ |}.
End Toy.

(** ** Concrete inputs

    The definitions over the stand-in primitives, and the stores and
    tokens the properties are run on. *)

Section verify_token_examples.
Import Toy.

(** The store of the module, over the stand-in primitives. *)
Definition toy_users_db : users_db := fake_users_db.

(** The same store after the account [usuario] was deactivated:
    [fake_users_db["usuario"]["is_active"] = False]. *)
Definition deactivated_db : users_db :=
  <["usuario" := mkDbUser "usuario" "user" (pwd_context_hash "L0XuwPOdS5U") false
                   (sha256_hexdigest "user")]> fake_users_db.

Definition toy_authenticate_user := authenticate_user.
Definition toy_verify_token := verify_token.
Definition toy_create_access_token := create_access_token.
Definition toy_validate_role := validate_role.
End verify_token_examples.

Section tampering_examples.
Import Toy.

(** Claims naming the role ["admin"] with the tag of ["user"]. *)
Definition tampered_claims : payload :=
  <["sub" := VStr "usuario"]>
  (<["role" := VStr "admin"]>
  (<["role_hash" := VStr (sha256_hexdigest "user")]>
  (<["exp" := VInt 1700001800]>
  (<["iss" := VStr "teste-tivit-api"]>
  (<["aud" := VStr "teste-tivit-client"]> ∅))))).

(** The tampered claims under a signature the key does not give. *)
Definition forged_token : token :=
  mkToken "HS256" tampered_claims "forged".

(** The tampered claims signed with the configured key. *)
Definition signed_tampered_token : token :=
  mkToken "HS256" tampered_claims
    (jws_signature (secret_key default_settings) "HS256" tampered_claims).
End tampering_examples.

Section authenticate_user_examples.
Import Toy.

(** The store with the role tag of [usuario] overwritten. *)
Definition tampered_db : users_db :=
  <["usuario" := mkDbUser "usuario" "user" (pwd_context_hash "L0XuwPOdS5U") true
                   "0000"]> fake_users_db.

(** The same, with the account inactive as well. *)
Definition tampered_inactive_db : users_db :=
  <["usuario" := mkDbUser "usuario" "user" (pwd_context_hash "L0XuwPOdS5U") false
                   "0000"]> fake_users_db.

Definition toy_verify_password := verify_password.
End authenticate_user_examples.

Section expired_examples.
Import Toy.

(** The token minted for [usuario] at second 1700000000. *)
Definition usuario_token : token :=
  let c := minted_claims default_settings "usuario" "user" 1700000000000000 "jti-0" in
  mkToken "HS256" c (jws_signature (secret_key default_settings) "HS256" c).

(** The claims of that token under a signature the key does not
    give. *)
Definition expired_forged_token : token :=
  mkToken "HS256" (claims usuario_token) "forged".

(** Signed claims whose [iat] is a text that is not a number. *)
Definition iat_text_token : token :=
  let c : payload := <["iat" := VStr "soon"]> (claims usuario_token) in
  mkToken "HS256" c (jws_signature (secret_key default_settings) "HS256" c).

(** The token of [usuario] with the audience given as a list. *)
Definition audience_list_token : token :=
  let c : payload :=
    <["aud" := VList [VStr "another-client"; VStr "teste-tivit-client"]]>
      (claims usuario_token) in
  mkToken "HS256" c (jws_signature (secret_key default_settings) "HS256" c).
End expired_examples.

Section malformed_examples.
Import Toy.

(** Signed claims without a subject. *)
Definition no_subject_token : token :=
  let c : payload :=
    <["role" := VStr "user"]>
    (<["role_hash" := VStr (sha256_hexdigest "user")]>
    (<["exp" := VInt 1700001800]>
    (<["iss" := VStr "teste-tivit-api"]>
    (<["aud" := VStr "teste-tivit-client"]> ∅)))) in
  mkToken "HS256" c (jws_signature (secret_key default_settings) "HS256" c).

(** Signed claims whose subject is [null]. *)
Definition null_subject_token : token :=
  let c : payload :=
    <["sub" := VNone]>
    (<["role" := VStr "user"]>
    (<["role_hash" := VStr (sha256_hexdigest "user")]>
    (<["exp" := VInt 1700001800]>
    (<["iss" := VStr "teste-tivit-api"]>
    (<["aud" := VStr "teste-tivit-client"]> ∅))))) in
  mkToken "HS256" c (jws_signature (secret_key default_settings) "HS256" c).

(** Signed claims whose subject is the empty string. *)
Definition empty_subject_token : token :=
  let c : payload :=
    <["sub" := VStr ""]>
    (<["role" := VStr "user"]>
    (<["role_hash" := VStr (sha256_hexdigest "user")]>
    (<["exp" := VInt 1700001800]>
    (<["iss" := VStr "teste-tivit-api"]>
    (<["aud" := VStr "teste-tivit-client"]> ∅))))) in
  mkToken "HS256" c (jws_signature (secret_key default_settings) "HS256" c).

(** Signed claims with a subject and an empty role. *)
Definition empty_role_token : token :=
  let c : payload :=
    <["sub" := VStr "usuario"]>
    (<["role" := VStr ""]>
    (<["role_hash" := VStr (sha256_hexdigest "")]>
    (<["exp" := VInt 1700001800]>
    (<["iss" := VStr "teste-tivit-api"]>
    (<["aud" := VStr "teste-tivit-client"]> ∅))))) in
  mkToken "HS256" c (jws_signature (secret_key default_settings) "HS256" c).

(** Signed claims with a role outside [VALID_ROLES] and the digest of
    that role as tag. *)
Definition superuser_token : token :=
  let c : payload :=
    <["sub" := VStr "usuario"]>
    (<["role" := VStr "superuser"]>
    (<["role_hash" := VStr (sha256_hexdigest "superuser")]>
    (<["exp" := VInt 1700001800]>
    (<["iss" := VStr "teste-tivit-api"]>
    (<["aud" := VStr "teste-tivit-client"]> ∅))))) in
  mkToken "HS256" c (jws_signature (secret_key default_settings) "HS256" c).

(** The same role and tag, signed, without a subject. *)
Definition superuser_no_subject_token : token :=
  let c : payload :=
    <["role" := VStr "superuser"]>
    (<["role_hash" := VStr (sha256_hexdigest "superuser")]>
    (<["exp" := VInt 1700001800]>
    (<["iss" := VStr "teste-tivit-api"]>
    (<["aud" := VStr "teste-tivit-client"]> ∅)))) in
  mkToken "HS256" c (jws_signature (secret_key default_settings) "HS256" c).

(** Signed claims for a user the store does not hold, with a role
    outside [VALID_ROLES]. *)
Definition ghost_token : token :=
  let c : payload :=
    <["sub" := VStr "ghost"]>
    (<["role" := VStr "superuser"]>
    (<["role_hash" := VStr (sha256_hexdigest "superuser")]>
    (<["exp" := VInt 1700001800]>
    (<["iss" := VStr "teste-tivit-api"]>
    (<["aud" := VStr "teste-tivit-client"]> ∅))))) in
  mkToken "HS256" c (jws_signature (secret_key default_settings) "HS256" c).
End malformed_examples.

Section use_case_examples.
Import Toy.

Definition toy_authenticate := authenticate.
Definition toy_repository : user_repository := FakeUserRepository.

(** A password that holds a NUL character. *)
Definition nul_password : string := String Ascii.zero "L0XuwPOdS5U".
End use_case_examples.

Section dependencies_examples.
Import Toy.

Definition toy_get_current_user := get_current_user.
Definition toy_validly_signed := validly_signed.


(** The token minted for [usuario] with the role claim ["admin"]. *)
Definition usuario_admin_token : token :=
  let c := minted_claims default_settings "usuario" "admin" 1700000000000000 "jti-0" in
  mkToken "HS256" c (jws_signature (secret_key default_settings) "HS256" c).

(** The entry of [usuario] in the repository. *)
Definition usuario_entity : entities.User :=
  entities.mkUser "usuario" entities.USER true (Some (get_password_hash "L0XuwPOdS5U")).

(** A user the repository does not hold yet. *)
Definition maria_entity : entities.User :=
  entities.mkUser "maria" entities.ADMIN true (Some (get_password_hash "s3nha")).
End dependencies_examples.

(** * Properties *)

(** ** Helper lemmas *)

Lemma bind_Return_inv {A B} (m : outcome A) (k : A -> outcome B) b :
  bind m k = Return b -> exists a, m = Return a /\ k a = Return b.
Proof. destruct m; simpl; intros Hk; try discriminate. eauto. Qed.

Lemma timegm_add_minutes now m :
  timegm (now + timedelta_minutes m) = timegm now + m * 60.
Proof.
  unfold timegm, timedelta_minutes.
  replace (m * 60 * 1000000) with ((m * 60) * 1000000) by lia.
  apply Z.div_add. lia.
Qed.

Lemma timegm_mono a b : a <= b -> timegm a <= timegm b.
Proof. intros Hab. unfold timegm. apply Z.div_le_mono; lia. Qed.

Lemma jws_usable_nonempty {jose_impl : Jose} key alg :
  jws_usable key alg = true -> String.eqb alg "" = false.
Proof.
  intros Hu. apply jws_usable_supported in Hu.
  destruct (String.eqb_spec alg "") as [-> | _]; [| reflexivity].
  rewrite jws_supported_nonempty in Hu. discriminate.
Qed.

(** The dictionary [jwt.encode] signs, in the order the code builds it,
    is the dictionary with each claim written once. *)
Lemma claims_built_once (sub role role_hash exp iat nbf jti iss aud exp0 iat0 nbf0 : value) :
  <["nbf" := nbf]> (<["iat" := iat]> (<["exp" := exp]>
    (<["role_hash" := role_hash]>
      (<["aud" := aud]> (<["iss" := iss]> (<["jti" := jti]>
        (<["nbf" := nbf0]> (<["iat" := iat0]> (<["exp" := exp0]>
          (<["role" := role]> (<["sub" := sub]> (∅ : payload))))))))))))
  = <["sub" := sub]> (<["role" := role]> (<["role_hash" := role_hash]>
      (<["exp" := exp]> (<["iat" := iat]> (<["nbf" := nbf]>
        (<["jti" := jti]> (<["iss" := iss]> (<["aud" := aud]> ∅)))))))).
Proof. vm_compute. reflexivity. Qed.

Section minting_lemmas.
Context {hashlib_impl : Hashlib} {pwd_context : CryptContext} {jose_impl : Jose}.
Variable settings : Settings.

Lemma minted_claims_serializable sub role now jti :
  map_Forall (fun _ v => json_serializable v = true)
             (minted_claims settings sub role now jti).
Proof.
  unfold minted_claims.
  repeat (apply map_Forall_insert_2; [reflexivity |]).
  apply map_Forall_empty.
Qed.

(** Minting succeeds for a supported algorithm, and signs
    [minted_claims]. *)
Lemma create_access_token_token_data sub role now jti :
  signing_configured settings ->
  create_access_token settings (token_data sub role) None now jti =
  Return (mkToken (algorithm settings) (minted_claims settings sub role now jti)
            (jws_signature (secret_key settings) (algorithm settings)
               (minted_claims settings sub role now jti))).
Proof.
  intros Halg. unfold create_access_token, token_data.
  pose proof (timegm_add_minutes now (access_token_expire_minutes settings)) as He.
  set (e := now + timedelta_minutes _) in *. clearbody e.
  match goal with |- context [?m !! "role"] =>
    assert (Hl : m !! "role" = Some (VStr role)) by reflexivity end.
  rewrite Hl. cbn [bind]. unfold jwt_encode.
  unfold signing_configured in Halg.
  rewrite Halg, (jws_usable_supported _ _ Halg). cbn [negb].
  cbv zeta.
  match goal with |- context [time_claim_to_int ?m "exp"] =>
    assert (H1e : time_claim_to_int m "exp" = <["exp" := VInt (timegm e)]> m)
      by reflexivity;
    rewrite H1e
  end.
  match goal with |- context [time_claim_to_int ?m "iat"] =>
    assert (H1i : time_claim_to_int m "iat" = <["iat" := VInt (timegm now)]> m)
      by reflexivity;
    rewrite H1i
  end.
  match goal with |- context [time_claim_to_int ?m "nbf"] =>
    assert (H1n : time_claim_to_int m "nbf" = <["nbf" := VInt (timegm now)]> m)
      by reflexivity;
    rewrite H1n
  end.
  rewrite claims_built_once, He. fold (minted_claims settings sub role now jti).
  rewrite bool_decide_eq_true_2 by apply minted_claims_serializable.
  reflexivity.
Qed.

(** The signed claims, key by key. *)
Lemma minted_claims_lookup sub role now jti :
  let c := minted_claims settings sub role now jti in
  c !! "sub" = Some (VStr sub) /\
  c !! "role" = Some (VStr role) /\
  c !! "role_hash" = Some (VStr (sha256_hexdigest role)) /\
  c !! "exp" = Some (VInt (timegm now + access_token_expire_minutes settings * 60)) /\
  c !! "iat" = Some (VInt (timegm now)) /\
  c !! "nbf" = Some (VInt (timegm now)) /\
  c !! "jti" = Some (VStr jti) /\
  c !! "iss" = Some (VStr "teste-tivit-api") /\
  c !! "aud" = Some (VStr "teste-tivit-client") /\
  c !! "at_hash" = None.
Proof. repeat split; reflexivity. Qed.

Lemma minted_claims_dom sub role now jti :
  dom (minted_claims settings sub role now jti) = CLAIM_NAMES.
Proof.
  unfold minted_claims, CLAIM_NAMES.
  rewrite !dom_insert_L, dom_empty_L. set_solver.
Qed.
End minting_lemmas.

Section role_lemmas.
Context {hashlib_impl : Hashlib}.

Lemma VALID_ROLES_user : VALID_ROLES !! "user" = Some (sha256_hexdigest "user").
Proof. reflexivity. Qed.

Lemma VALID_ROLES_admin : VALID_ROLES !! "admin" = Some (sha256_hexdigest "admin").
Proof. reflexivity. Qed.

(** The mapping has the two keys and no other; each tag is the digest
    of its role name. *)
Lemma VALID_ROLES_lookup role tag :
  VALID_ROLES !! role = Some tag <->
  (role = "user" \/ role = "admin") /\ tag = sha256_hexdigest role.
Proof.
  unfold VALID_ROLES. split.
  - intros Hl.
    apply lookup_insert_Some in Hl as [[<- <-] | [_ Hl]]; [auto |].
    apply lookup_insert_Some in Hl as [[<- <-] | [_ Hl]]; [auto |].
    rewrite lookup_empty in Hl. discriminate.
  - intros [[-> | ->] ->]; reflexivity.
Qed.

Lemma VALID_ROLES_None role :
  role <> "user" -> role <> "admin" -> VALID_ROLES !! role = None.
Proof.
  intros Hu Ha. destruct (VALID_ROLES !! role) as [tag |] eqn:Hl; [| reflexivity].
  apply VALID_ROLES_lookup in Hl as [[-> | ->] _]; contradiction.
Qed.

(** A role that is not a key of the mapping is refused whatever the
    tag, and the tag is not looked at. *)
Lemma validate_role_unknown (role : string) role_hash :
  role <> "user" -> role <> "admin" ->
  validate_role (VStr role) role_hash = Return false.
Proof.
  intros Hu Ha. unfold validate_role. cbn [get_by_value bind].
  rewrite VALID_ROLES_None by assumption. reflexivity.
Qed.

(** A valid role with its own digest is accepted. *)
Lemma validate_role_digest role :
  role = "user" \/ role = "admin" ->
  validate_role (VStr role) (VStr (sha256_hexdigest role)) = Return true.
Proof.
  intros Hr. unfold validate_role. cbn [get_by_value bind].
  assert (Hl : VALID_ROLES !! role = Some (sha256_hexdigest role))
    by (apply VALID_ROLES_lookup; auto).
  rewrite Hl. unfold compare_digest.
  rewrite sha256_hexdigest_ascii, String.eqb_refl. reflexivity.
Qed.

(** An ASCII tag that differs from the expected one is refused. *)
Lemma validate_role_mismatch role role_hash :
  is_ascii role_hash = true ->
  VALID_ROLES !! role <> Some role_hash ->
  validate_role (VStr role) (VStr role_hash) = Return false.
Proof.
  intros Hascii Hne. unfold validate_role. cbn [get_by_value bind].
  destruct (VALID_ROLES !! role) as [tag |] eqn:Hl; [| reflexivity].
  unfold compare_digest.
  assert (Htag : tag = sha256_hexdigest role) by (apply VALID_ROLES_lookup in Hl; tauto).
  rewrite Htag, sha256_hexdigest_ascii, Hascii. cbn [andb].
  destruct (String.eqb_spec (sha256_hexdigest role) role_hash) as [Heq | _];
    [| reflexivity].
  exfalso. apply Hne. congruence.
Qed.

(** [validate_role] never raises a [JWTError] nor an [HTTPException]. *)
Lemma validate_role_outcome role role_hash :
  (exists b, validate_role role role_hash = Return b) \/
  validate_role role role_hash = RaisePy "TypeError".
Proof.
  unfold validate_role, get_by_value, compare_digest.
  repeat (case_match; cbn [bind]); eauto.
Qed.
End role_lemmas.

Section verify_lemmas.
Context {hashlib_impl : Hashlib} {pwd_context : CryptContext} {jose_impl : Jose}.
Variable settings : Settings.

Lemma claims_checks_not_JWTError db p msg : claims_checks db p <> RaiseJWT msg.
Proof.
  unfold claims_checks.
  destruct (truthy (dict_get p "sub")); cbn [negb]; [| discriminate].
  destruct (negb (truthy (dict_get p "role")) || negb (truthy (dict_get p "role_hash")));
    [discriminate |].
  destruct (validate_role_outcome (dict_get p "role") (dict_get p "role_hash"))
    as [[b ->] | ->]; cbn [bind]; [| discriminate].
  destruct b; cbn [negb]; [| discriminate].
  unfold get_by_value. repeat (case_match; cbn [bind]); discriminate.
Qed.

(** On a token that decodes, [verify_token] is the checks on its
    claims. *)
Lemma verify_token_decoded db now t p :
  decode settings t now = Return p ->
  verify_token settings db now t = claims_checks db p.
Proof.
  intros Hd. unfold verify_token. rewrite Hd. cbn [bind].
  change (except_JWTError (claims_checks db p) = claims_checks db p).
  pose proof (claims_checks_not_JWTError db p) as Hn.
  destruct (claims_checks db p); try reflexivity.
  exfalso. eapply Hn. reflexivity.
Qed.

(** A [JWTError] of the decoding becomes a 401 carrying its message. *)
Lemma verify_token_JWTError db now t msg :
  decode settings t now = RaiseJWT msg ->
  verify_token settings db now t =
  RaiseHTTP (mkHTTPException HTTP_401_UNAUTHORIZED ("Invalid token: " ++ msg)).
Proof. intros Hd. unfold verify_token. rewrite Hd. reflexivity. Qed.

(** What decoding returns is the claims of the token, and the token is
    validly signed. *)
Lemma decode_Return t now p :
  decode settings t now = Return p ->
  p = claims t /\ validly_signed settings t.
Proof.
  unfold decode, jwt_decode, validly_signed. intros Hd.
  apply bind_Return_inv in Hd as (p' & Hv & Hd).
  apply bind_Return_inv in Hd as (_ & _ & Hd).
  injection Hd as <-.
  assert (p' = claims t) as ->.
  { unfold jws_verify in Hv. repeat case_match; congruence. }
  auto.
Qed.

(** A signature that does not verify under the configured key is
    refused by the signature check, before any claim is read. *)
Lemma decode_forged t now :
  header_alg t = algorithm settings ->
  signing_configured settings ->
  jws_sig_matches (secret_key settings) (header_alg t) (claims t) (signature t) = false ->
  decode settings t now = RaiseJWT "Signature verification failed.".
Proof.
  intros Ha Halg Hsig. unfold decode, jwt_decode, jws_verify.
  rewrite Hsig. rewrite Ha in *. unfold signing_configured in Halg.
  rewrite (jws_usable_nonempty _ _ Halg), Halg.
  rewrite bool_decide_eq_true_2 by (apply list_elem_of_singleton; reflexivity).
  reflexivity.
Qed.

(** A freshly minted token decodes from the minting instant to its
    expiry. *)
Lemma decode_minted sub role now jti now' :
  signing_configured settings ->
  now <= now' <= now + timedelta_minutes (access_token_expire_minutes settings) ->
  decode settings
    (mkToken (algorithm settings) (minted_claims settings sub role now jti)
       (jws_signature (secret_key settings) (algorithm settings)
          (minted_claims settings sub role now jti))) now'
  = Return (minted_claims settings sub role now jti).
Proof.
  intros Halg [Hlo Hhi]. unfold decode, jwt_decode, jws_verify.
  cbn [header_alg claims signature]. unfold signing_configured in Halg.
  rewrite (jws_usable_nonempty _ _ Halg), Halg.
  rewrite bool_decide_eq_true_2 by (apply list_elem_of_singleton; reflexivity).
  rewrite jws_sig_matches_signature by assumption. cbn [negb bind].
  destruct (minted_claims_lookup settings sub role now jti)
    as (Hsub & _ & _ & Hexp & Hiat & Hnbf & Hjti & Hiss & Haud & Hat).
  apply timegm_mono in Hlo. apply timegm_mono in Hhi.
  rewrite timegm_add_minutes in Hhi.
  unfold _validate_claims, _validate_iat, _validate_nbf, _validate_exp,
    _validate_aud, _validate_iss, _validate_sub, _validate_jti, _validate_at_hash,
    dict_get.
  rewrite Hiat, Hnbf, Hexp, Haud, Hiss, Hsub, Hjti, Hat.
  cbv [default from_option id]. cbn [int_claim bind].
  destruct (Z.ltb_spec (timegm now') (timegm now)); [lia |].
  destruct (Z.ltb_spec (timegm now + access_token_expire_minutes settings * 60)
              (timegm now')); [lia |].
  reflexivity.
Qed.
End verify_lemmas.

(** ** Minting *)

(** C3: for an identity with a valid role, [create_access_token] on the
    claims [{sub, role}] with the default lifetime returns a token whose
    claims are exactly [sub], [role], [role_hash], [exp], [iat], [nbf],
    [jti], [iss] and [aud]; [iss] is ["teste-tivit-api"], [aud] is
    ["teste-tivit-client"], [nbf] equals [iat], [exp] is [iat] plus the
    configured number of minutes (in seconds), and [role_hash] is the
    tag [VALID_ROLES] expects for the role. *)
Theorem create_access_token_claims
    {hashlib_impl : Hashlib} {pwd_context : CryptContext} {jose_impl : Jose}
    (settings : Settings) (username role : string) (now : Z) (jti : string) :
  signing_configured settings ->
  role = "user" \/ role = "admin" ->
  exists (t : token) (iat : Z) (tag : string),
    create_access_token settings (token_data username role) None now jti = Return t /\
    dom (claims t) = CLAIM_NAMES /\
    claims t !! "sub" = Some (VStr username) /\
    claims t !! "role" = Some (VStr role) /\
    claims t !! "jti" = Some (VStr jti) /\
    claims t !! "iss" = Some (VStr "teste-tivit-api") /\
    claims t !! "aud" = Some (VStr "teste-tivit-client") /\
    claims t !! "iat" = Some (VInt iat) /\
    claims t !! "nbf" = Some (VInt iat) /\
    claims t !! "exp" = Some (VInt (iat + access_token_expire_minutes settings * 60)) /\
    VALID_ROLES !! role = Some tag /\
    claims t !! "role_hash" = Some (VStr tag).
Proof.
  intros Halg Hrole.
  eexists _, (timegm now), (sha256_hexdigest role).
  split; [apply create_access_token_token_data; assumption |].
  cbn [claims].
  destruct (minted_claims_lookup settings username role now jti)
    as (Hsub & Hrl & Hrh & Hexp & Hiat & Hnbf & Hjti & Hiss & Haud & _).
  split; [apply minted_claims_dom |].
  repeat (split; [assumption |]).
  split; [| assumption].
  apply VALID_ROLES_lookup. auto.
Qed.

Lemma create_access_token_claims_witness :
  exists (t : token) (iat : Z) (tag : string),
    toy_create_access_token default_settings (token_data "usuario" "user") None
      1700000000123456 "jti-0" = Return t /\
    dom (claims t) = CLAIM_NAMES /\
    claims t !! "sub" = Some (VStr "usuario") /\
    claims t !! "role" = Some (VStr "user") /\
    claims t !! "jti" = Some (VStr "jti-0") /\
    claims t !! "iss" = Some (VStr "teste-tivit-api") /\
    claims t !! "aud" = Some (VStr "teste-tivit-client") /\
    claims t !! "iat" = Some (VInt iat) /\
    claims t !! "nbf" = Some (VInt iat) /\
    claims t !! "exp" = Some (VInt (iat + access_token_expire_minutes default_settings * 60)) /\
    VALID_ROLES (hashlib_impl := Toy.hashlib) !! "user" = Some tag /\
    claims t !! "role_hash" = Some (VStr tag).
Proof.
  apply (create_access_token_claims (hashlib_impl := Toy.hashlib)
           (pwd_context := Toy.crypt_context) (jose_impl := Toy.jose)
           default_settings "usuario" "user" 1700000000123456 "jti-0").
  - reflexivity.
  - left. reflexivity.
Defined.

(** ** Round trip *)

Lemma truthy_VStr s : s <> "" -> truthy (VStr s) = true.
Proof.
  intros Hs. cbn [truthy]. destruct (String.eqb_spec s ""); [contradiction | reflexivity].
Qed.

Lemma valid_role_nonempty role : role = "user" \/ role = "admin" -> role <> "".
Proof. intros [-> | ->]; discriminate. Qed.

Section roundtrip.
Context {hashlib_impl : Hashlib} {pwd_context : CryptContext} {jose_impl : Jose}.
Variable settings : Settings.

(** The checks on the claims of a minted token, up to the store
    lookup. *)
Lemma claims_checks_minted db username role now jti :
  role = "user" \/ role = "admin" ->
  username <> "" ->
  claims_checks db (minted_claims settings username role now jti) =
  match db !! username with
  | None => RaiseHTTP user_not_found_or_inactive
  | Some user =>
      if negb (is_active user) then RaiseHTTP user_not_found_or_inactive
      else Return (minted_claims settings username role now jti)
  end.
Proof.
  intros Hrole Hname. unfold claims_checks, dict_get.
  destruct (minted_claims_lookup settings username role now jti)
    as (Hsub & Hrl & Hrh & _).
  rewrite Hsub, Hrl, Hrh. cbv [default from_option id].
  rewrite (truthy_VStr username) by assumption.
  rewrite (truthy_VStr role) by (apply valid_role_nonempty; assumption).
  rewrite (truthy_VStr (sha256_hexdigest role)) by apply sha256_hexdigest_nonempty.
  cbn [negb orb].
  rewrite validate_role_digest by assumption. cbn [bind negb].
  reflexivity.
Qed.
End roundtrip.

(** C1 (amended): for every identity whose role is ["user"] or ["admin"]
    and whose non-empty user name is, at verification, the key of an
    active record of the credential store, the token minted from the
    claims [{sub, role}] verifies at any time from the minting instant
    to its expiry, and the payload returned has that [sub] and that
    [role]. *)
Theorem verify_token_create_access_token
    {hashlib_impl : Hashlib} {pwd_context : CryptContext} {jose_impl : Jose}
    (settings : Settings) (db : users_db) (username role : string)
    (now : Z) (jti : string) (now' : Z) (user : db_user) :
  signing_configured settings ->
  role = "user" \/ role = "admin" ->
  username <> "" ->
  db !! username = Some user ->
  is_active user = true ->
  now <= now' <= now + timedelta_minutes (access_token_expire_minutes settings) ->
  exists (t : token) (p : payload),
    create_access_token settings (token_data username role) None now jti = Return t /\
    verify_token settings db now' t = Return p /\
    p !! "sub" = Some (VStr username) /\
    p !! "role" = Some (VStr role).
Proof.
  intros Halg Hrole Hname Hdb Hact Hnow.
  eexists _, (minted_claims settings username role now jti).
  split; [apply create_access_token_token_data; assumption |].
  split.
  - rewrite (verify_token_decoded settings db now' _
               (minted_claims settings username role now jti))
      by (apply decode_minted; assumption).
    rewrite claims_checks_minted by assumption.
    rewrite Hdb, Hact. reflexivity.
  - destruct (minted_claims_lookup settings username role now jti)
      as (Hsub & Hrl & _).
    auto.
Qed.

Lemma verify_token_create_access_token_witness :
  exists (t : token) (p : payload),
    toy_create_access_token default_settings (token_data "usuario" "user") None
      1700000000123456 "jti-0" = Return t /\
    toy_verify_token default_settings toy_users_db 1700000600000000 t = Return p /\
    p !! "sub" = Some (VStr "usuario") /\
    p !! "role" = Some (VStr "user").
Proof.
  apply (verify_token_create_access_token (hashlib_impl := Toy.hashlib)
           (pwd_context := Toy.crypt_context) (jose_impl := Toy.jose)
           default_settings toy_users_db "usuario" "user" 1700000000123456 "jti-0"
           1700000600000000
           (mkDbUser "usuario" "user" (Toy.bcrypt "L0XuwPOdS5U") true (Toy.hexdigest "user"))).
  - reflexivity.
  - left. reflexivity.
  - discriminate.
  - reflexivity.
  - reflexivity.
  - vm_compute. split; discriminate.
Defined.

(** C1 as stated fails: [usuario] authenticates with the role ["user"]
    and its matching tag, a token is minted from that identity, the
    account is deactivated, and the token, one second old and half an
    hour from its expiry, is refused with "User not found or
    inactive". *)
Lemma verify_token_create_access_token_counterexample :
  exists t : token,
    toy_authenticate_user toy_users_db "usuario" "L0XuwPOdS5U"
    = ([("L0XuwPOdS5U", (Toy.bcrypt "L0XuwPOdS5U"))],
       Return (Some (mkIdentity "usuario" "user" true))) /\
    toy_validate_role (VStr "user") (VStr (Toy.hexdigest "user")) = Return true /\
    toy_create_access_token default_settings (token_data "usuario" "user") None
      1700000000000000 "jti-0" = Return t /\
    claims t !! "exp" = Some (VInt 1700001800) /\
    toy_verify_token default_settings deactivated_db 1700000001000000 t
    = RaiseHTTP user_not_found_or_inactive.
Proof.
  eexists. split; [vm_compute; reflexivity |].
  split; [vm_compute; reflexivity |].
  split; [vm_compute; reflexivity |].
  split; vm_compute; reflexivity.
Qed.

(** ** Forged and tampered tokens *)

Section tampering.
Context {hashlib_impl : Hashlib} {pwd_context : CryptContext} {jose_impl : Jose}.
Variable settings : Settings.

(** A token that is not validly signed fails in [jws.verify]: with one
    of its messages, or when the key is built. *)
Lemma jws_verify_failure t :
  ~ validly_signed settings t ->
  (exists msg,
     jws_verify t (secret_key settings) [algorithm settings] = RaiseJWT msg /\
     msg <> "role tampering detected") \/
  jws_verify t (secret_key settings) [algorithm settings] = RaisePy "JWKError".
Proof.
  unfold validly_signed, jws_verify. intros Hn.
  repeat case_match; try (left; eexists; split; [reflexivity | discriminate]).
  - right. reflexivity.
  - contradiction.
Qed.

(** The role check is reached, and refuses, when the claims decode
    with a subject, a role and a tag, and [validate_role] says no. *)
Lemma claims_checks_tampering db p :
  truthy (dict_get p "sub") = true ->
  truthy (dict_get p "role") = true ->
  truthy (dict_get p "role_hash") = true ->
  validate_role (dict_get p "role") (dict_get p "role_hash") = Return false ->
  claims_checks db p = RaiseHTTP role_tampering_detected.
Proof.
  intros Hs Hr Hh Hv. unfold claims_checks.
  rewrite Hs, Hr, Hh, Hv. reflexivity.
Qed.
End tampering.

Definition signature_verification_failed : HTTPException :=
  mkHTTPException HTTP_401_UNAUTHORIZED "Invalid token: Signature verification failed.".

(** C2 (amended): no token that is not validly signed under the
    configured key and algorithm is accepted, or refused with the
    role-tampering failure, whatever its [role_hash]: the signature
    check comes first.  When the header of the token names the
    configured algorithm, the key is usable with it and the signature
    does not verify, the token is refused with the 401 "Invalid token:
    Signature verification failed.".  The role-tag check comes after
    the decoding: a token that [jwt.decode] accepts, with a non-empty
    subject, a non-empty role string and a non-empty ASCII [role_hash]
    string that is not the tag expected for the role, is refused with
    the role-tampering failure. *)
Theorem verify_token_forged_or_tampered
    {hashlib_impl : Hashlib} {pwd_context : CryptContext} {jose_impl : Jose}
    (settings : Settings) (db : users_db) (now : Z) (t : token) :
  (signing_configured settings ->
   header_alg t = algorithm settings ->
   jws_sig_matches (secret_key settings) (header_alg t) (claims t) (signature t) = false ->
   verify_token settings db now t = RaiseHTTP signature_verification_failed) /\
  (~ validly_signed settings t ->
   (forall p, verify_token settings db now t <> Return p) /\
   verify_token settings db now t <> RaiseHTTP role_tampering_detected) /\
  (forall role role_hash : string,
     decode settings t now = Return (claims t) ->
     truthy (dict_get (claims t) "sub") = true ->
     claims t !! "role" = Some (VStr role) -> role <> "" ->
     claims t !! "role_hash" = Some (VStr role_hash) -> role_hash <> "" ->
     is_ascii role_hash = true ->
     VALID_ROLES !! role <> Some role_hash ->
     verify_token settings db now t = RaiseHTTP role_tampering_detected).
Proof.
  split; [| split].
  - intros Hconf Halg Hsig.
    apply (verify_token_JWTError settings db now t "Signature verification failed.").
    apply decode_forged; assumption.
  - intros Hn.
    destruct (jws_verify_failure settings t Hn) as [(msg & Hv & Hmsg) | Hv].
    + assert (Hd : decode settings t now = RaiseJWT msg).
      { unfold decode, jwt_decode. rewrite Hv. reflexivity. }
      rewrite (verify_token_JWTError settings db now t msg Hd).
      split; [discriminate |].
      unfold role_tampering_detected. intros Heq.
      injection Heq as Heq. apply Hmsg. exact Heq.
    + unfold verify_token, decode, jwt_decode. rewrite Hv.
      split; [intros p |]; discriminate.
  - intros role role_hash Hd Hsub Hrole Hr Hhash Hh Hascii Hne.
    rewrite (verify_token_decoded settings db now t (claims t) Hd).
    apply claims_checks_tampering; unfold dict_get; try assumption.
    + rewrite Hrole. apply truthy_VStr. assumption.
    + rewrite Hhash. apply truthy_VStr. assumption.
    + rewrite Hrole, Hhash. apply validate_role_mismatch; assumption.
Qed.

Lemma verify_token_forged_or_tampered_witness :
  toy_verify_token default_settings toy_users_db 1700000001000000 forged_token
    = RaiseHTTP signature_verification_failed /\
  ((forall p, toy_verify_token default_settings toy_users_db 1700000001000000
                forged_token <> Return p) /\
   toy_verify_token default_settings toy_users_db 1700000001000000 forged_token
     <> RaiseHTTP role_tampering_detected) /\
  toy_verify_token default_settings toy_users_db 1700000001000000 signed_tampered_token
    = RaiseHTTP role_tampering_detected.
Proof.
  pose proof (verify_token_forged_or_tampered (hashlib_impl := Toy.hashlib)
                (pwd_context := Toy.crypt_context) (jose_impl := Toy.jose)
                default_settings toy_users_db 1700000001000000 forged_token)
    as (Hforged & Hunsigned & _).
  split; [| split].
  - apply Hforged.
    + reflexivity.
    + reflexivity.
    + vm_compute. reflexivity.
  - apply Hunsigned. vm_compute. discriminate.
  - apply (proj2 (proj2 (verify_token_forged_or_tampered (hashlib_impl := Toy.hashlib)
             (pwd_context := Toy.crypt_context) (jose_impl := Toy.jose)
             default_settings toy_users_db 1700000001000000 signed_tampered_token))
             "admin" (Toy.hexdigest "user")).
    + vm_compute. reflexivity.
    + reflexivity.
    + reflexivity.
    + discriminate.
    + reflexivity.
    + discriminate.
    + reflexivity.
    + vm_compute. discriminate.
Defined.

(** C2 as stated fails: the forged token carries a signature that does
    not verify and a [role_hash] that is not the tag of its role,
    [validate_role] would refuse the pair, yet [verify_token] refuses the
    token with the signature failure, not with the role-tampering
    failure. *)
Lemma verify_token_forged_counterexample :
  jws_sig_matches (Jose := Toy.jose) (secret_key default_settings)
    (header_alg forged_token) (claims forged_token) (signature forged_token) = false /\
  toy_validate_role (dict_get (claims forged_token) "role")
                    (dict_get (claims forged_token) "role_hash") = Return false /\
  toy_verify_token default_settings toy_users_db 1700000001000000 forged_token
    = RaiseHTTP (mkHTTPException HTTP_401_UNAUTHORIZED
                   "Invalid token: Signature verification failed.") /\
  toy_verify_token default_settings toy_users_db 1700000001000000 forged_token
    <> RaiseHTTP role_tampering_detected.
Proof.
  split; [vm_compute; reflexivity |].
  split; [vm_compute; reflexivity |].
  split; [vm_compute; reflexivity |].
  vm_compute. discriminate.
Qed.

(** ** Authentication *)

(** An active record whose password verifies and whose tag
    [validate_role] refuses: the 500 is raised. *)
Lemma authenticate_user_raises {hashlib_impl : Hashlib} {pwd_context : CryptContext}
    (db : users_db) (username password : string) (user : db_user) :
  db !! username = Some user ->
  is_active user = true ->
  verify_password password (password_hash user) = Return true ->
  is_ascii (role_hash user) = true ->
  VALID_ROLES !! role user <> Some (role_hash user) ->
  snd (authenticate_user db username password) = RaiseHTTP security_violation.
Proof.
  intros Hdb Hact Hpw Hascii Htag. unfold authenticate_user.
  rewrite Hdb, Hact, Hpw. cbn [negb snd bind].
  rewrite validate_role_mismatch by assumption. reflexivity.
Qed.

(** C4 (amended): for every active user record whose password verifies
    and whose stored role tag is refused by [validate_role] (the role is
    not a key of [VALID_ROLES], or the tag is an ASCII string other than
    the expected one), [authenticate_user] raises the 500 "Security
    violation detected", which is not the credentials failure [None]. *)
Theorem authenticate_user_integrity_violation
    {hashlib_impl : Hashlib} {pwd_context : CryptContext}
    (db : users_db) (username password : string) (user : db_user) :
  db !! username = Some user ->
  is_active user = true ->
  verify_password password (password_hash user) = Return true ->
  is_ascii (role_hash user) = true ->
  VALID_ROLES !! role user <> Some (role_hash user) ->
  snd (authenticate_user db username password) = RaiseHTTP security_violation /\
  status_code security_violation = 500 /\
  snd (authenticate_user db username password) <> Return None.
Proof.
  intros Hdb Hact Hpw Hascii Htag.
  rewrite (authenticate_user_raises db username password user) by assumption.
  repeat split. discriminate.
Qed.

Lemma authenticate_user_integrity_violation_witness :
  snd (toy_authenticate_user tampered_db "usuario" "L0XuwPOdS5U")
    = RaiseHTTP security_violation /\
  status_code security_violation = 500 /\
  snd (toy_authenticate_user tampered_db "usuario" "L0XuwPOdS5U") <> Return None.
Proof.
  apply (authenticate_user_integrity_violation (hashlib_impl := Toy.hashlib)
           (pwd_context := Toy.crypt_context) tampered_db "usuario" "L0XuwPOdS5U"
           (mkDbUser "usuario" "user" (Toy.bcrypt "L0XuwPOdS5U") true "0000")).
  - reflexivity.
  - reflexivity.
  - reflexivity.
  - reflexivity.
  - vm_compute. discriminate.
Defined.

(** C4 as stated fails: the record of [usuario] has a password that
    verifies and a role tag that does not match, but the account is
    inactive, and [authenticate_user] returns [None], the credentials
    failure. *)
Lemma authenticate_user_integrity_violation_counterexample :
  exists user : db_user,
    tampered_inactive_db !! "usuario" = Some user /\
    toy_verify_password "L0XuwPOdS5U" (password_hash user) = Return true /\
    toy_validate_role (VStr (role user)) (VStr (role_hash user)) = Return false /\
    snd (toy_authenticate_user tampered_inactive_db "usuario" "L0XuwPOdS5U")
      = Return None.
Proof.
  eexists. split; [reflexivity |].
  repeat split; vm_compute; reflexivity.
Qed.

(** C5 (a fault of the code): for a user name absent from the store,
    [authenticate_user] makes its one call to [pwd_context.verify], on
    the password and the fixed placeholder, and the call raises
    [ValueError], the placeholder not being a well-formed hash; so the
    function raises where it was to return [None].  For an inactive
    account, and for a password the verification returns [False] on, it
    returns [None]. *)
Theorem authenticate_user_absent_raises
    {hashlib_impl : Hashlib} {pwd_context : CryptContext}
    (db : users_db) (username password : string) :
  (db !! username = None ->
   authenticate_user db username password
     = ([(password, dummy_hash)], RaisePy "ValueError") /\
   snd (authenticate_user db username password) <> Return None) /\
  (forall user, db !! username = Some user -> is_active user = false ->
   snd (authenticate_user db username password) = Return None) /\
  (forall user, db !! username = Some user ->
   verify_password password (password_hash user) = Return false ->
   snd (authenticate_user db username password) = Return None).
Proof.
  unfold authenticate_user. split; [| split].
  - intros ->. rewrite pwd_context_verify_malformed by reflexivity.
    split; [reflexivity | discriminate].
  - intros user -> ->. reflexivity.
  - intros user -> ->. destruct (is_active user); reflexivity.
Qed.

Lemma authenticate_user_absent_raises_witness :
  (toy_authenticate_user toy_users_db "nobody" "L0XuwPOdS5U"
     = ([("L0XuwPOdS5U", dummy_hash)], RaisePy "ValueError") /\
   snd (toy_authenticate_user toy_users_db "nobody" "L0XuwPOdS5U") <> Return None) /\
  snd (toy_authenticate_user deactivated_db "usuario" "L0XuwPOdS5U") = Return None /\
  snd (toy_authenticate_user toy_users_db "usuario" "wrong") = Return None.
Proof.
  split; [| split].
  - apply (authenticate_user_absent_raises (hashlib_impl := Toy.hashlib)
             (pwd_context := Toy.crypt_context) toy_users_db "nobody" "L0XuwPOdS5U").
    reflexivity.
  - apply (proj1 (proj2 (authenticate_user_absent_raises
             (hashlib_impl := Toy.hashlib) (pwd_context := Toy.crypt_context)
             deactivated_db "usuario" "L0XuwPOdS5U"))
             (mkDbUser "usuario" "user" (Toy.bcrypt "L0XuwPOdS5U") false
                (Toy.hexdigest "user"))).
    + reflexivity.
    + reflexivity.
  - apply (proj2 (proj2 (authenticate_user_absent_raises
             (hashlib_impl := Toy.hashlib) (pwd_context := Toy.crypt_context)
             toy_users_db "usuario" "wrong"))
             (mkDbUser "usuario" "user" (Toy.bcrypt "L0XuwPOdS5U") true
                (Toy.hexdigest "user"))).
    + reflexivity.
    + reflexivity.
Defined.

(** ** Rejections of [verify_token] *)

Section time_window.
Context {jose_impl : Jose}.

Lemma _validate_iat_numeric c :
  numeric_or_absent c "iat" -> _validate_iat c = Return tt.
Proof. unfold _validate_iat. intros [-> | [n ->]]; reflexivity. Qed.

(** With an [nbf] claim that is an integer or absent, the not-before
    check passes or fails with its own message. *)
Lemma _validate_nbf_numeric c now :
  numeric_or_absent c "nbf" ->
  _validate_nbf c now = Return tt \/
  _validate_nbf c now = RaiseJWT "The token is not yet valid (nbf)".
Proof.
  unfold _validate_nbf. intros [-> | [n ->]]; [left; reflexivity |].
  cbn [int_claim bind]. destruct (Z.ltb (timegm now) n); auto.
Qed.

Lemma _validate_exp_expired c now exp :
  c !! "exp" = Some (VInt exp) -> exp < timegm now ->
  _validate_exp c now = RaiseJWT "Signature has expired.".
Proof.
  unfold _validate_exp. intros -> Hlt. cbn [int_claim bind].
  destruct (Z.ltb_spec exp (timegm now)); [reflexivity | lia].
Qed.
End time_window.

(** C6 (amended): for every validly signed token whose [iat] and [nbf]
    claims are integers or absent and whose [exp] claim is an integer
    that lies strictly before the current time counted in whole seconds,
    [verify_token] raises the time-window failure: "Signature has
    expired.", or "The token is not yet valid (nbf)" when its [nbf] lies
    in the future as well. *)
Theorem verify_token_expired
    {hashlib_impl : Hashlib} {pwd_context : CryptContext} {jose_impl : Jose}
    (settings : Settings) (db : users_db) (now : Z) (t : token) (exp : Z) :
  validly_signed settings t ->
  numeric_or_absent (claims t) "iat" ->
  numeric_or_absent (claims t) "nbf" ->
  claims t !! "exp" = Some (VInt exp) ->
  exp < timegm now ->
  exists e, verify_token settings db now t = RaiseHTTP e /\
            ExpiredOrNotYetValid e /\
            (_validate_nbf (claims t) now = Return tt -> e = signature_has_expired).
Proof.
  intros Hs Hiat Hnbf Hexp Hlt.
  unfold verify_token, decode, jwt_decode. unfold validly_signed in Hs.
  rewrite Hs. cbn [bind]. unfold _validate_claims.
  rewrite (_validate_iat_numeric _ Hiat). cbn [bind].
  destruct (_validate_nbf_numeric (claims t) now Hnbf) as [-> | ->]; cbn [bind].
  - rewrite (_validate_exp_expired _ _ _ Hexp Hlt). cbn [bind except_JWTError].
    exists signature_has_expired. unfold ExpiredOrNotYetValid. auto.
  - exists token_not_yet_valid. cbn [except_JWTError]. unfold ExpiredOrNotYetValid.
    split; [reflexivity |]. split; [auto |]. discriminate.
Qed.

Lemma verify_token_expired_witness :
  exists e, toy_verify_token default_settings toy_users_db 1700001801000000 usuario_token
              = RaiseHTTP e /\
            ExpiredOrNotYetValid e /\
            (_validate_nbf (jose_impl := Toy.jose) (claims usuario_token) 1700001801000000
               = Return tt -> e = signature_has_expired).
Proof.
  apply (verify_token_expired (hashlib_impl := Toy.hashlib)
           (pwd_context := Toy.crypt_context) (jose_impl := Toy.jose)
           default_settings toy_users_db 1700001801000000 usuario_token 1700001800).
  - vm_compute. reflexivity.
  - right. exists 1700000000. reflexivity.
  - right. exists 1700000000. reflexivity.
  - reflexivity.
  - vm_compute. reflexivity.
Defined.

(** C6 as stated fails, in three ways.  The token of [usuario] expires
    at second 1700001800 and verifies 999999 microseconds after that
    instant: the verifier drops the microseconds of the clock.  The
    same claims under a forged signature, one second after the expiry,
    are refused with the signature failure.  And a validly signed,
    expired token whose [iat] is not a number is refused for its
    [iat]. *)
Lemma verify_token_expired_counterexample :
  (claims usuario_token !! "exp" = Some (VInt 1700001800) /\
   1700001800 * 1000000 < 1700001800999999 /\
   toy_verify_token default_settings toy_users_db 1700001800999999 usuario_token
     = Return (claims usuario_token)) /\
  (claims expired_forged_token !! "exp" = Some (VInt 1700001800) /\
   toy_verify_token default_settings toy_users_db 1700001801000000 expired_forged_token
     = RaiseHTTP signature_verification_failed /\
   ~ ExpiredOrNotYetValid signature_verification_failed) /\
  (claims iat_text_token !! "exp" = Some (VInt 1700001800) /\
   toy_validly_signed default_settings iat_text_token /\
   toy_verify_token default_settings toy_users_db 1700001801000000 iat_text_token
     = RaiseHTTP (mkHTTPException HTTP_401_UNAUTHORIZED
                    "Invalid token: Issued At claim (iat) must be an integer.")).
Proof.
  split; [| split].
  - split; [reflexivity |]. split; [reflexivity |]. vm_compute. reflexivity.
  - split; [reflexivity |]. split; [vm_compute; reflexivity |].
    intros [He | He]; discriminate He.
  - split; [reflexivity |]. split; vm_compute; reflexivity.
Qed.

Lemma missing_or_empty_falsy (c : payload) k :
  missing_or_empty c k -> truthy (dict_get c k) = false.
Proof. unfold dict_get. intros [-> | [-> | ->]]; reflexivity. Qed.

Section store_lemmas.
Context {hashlib_impl : Hashlib}.

(** The checks on decoded claims that pass the role check end at the
    store lookup. *)
Lemma claims_checks_absent_or_inactive db p username role :
  p !! "sub" = Some (VStr username) -> username <> "" ->
  p !! "role" = Some (VStr role) -> role = "user" \/ role = "admin" ->
  p !! "role_hash" = Some (VStr (sha256_hexdigest role)) ->
  absent_or_inactive db username ->
  claims_checks db p = RaiseHTTP user_not_found_or_inactive.
Proof.
  intros Hsub Hname Hrl Hrole Hrh Hdb.
  unfold claims_checks, dict_get. rewrite Hsub, Hrl, Hrh.
  cbv [default from_option id].
  rewrite (truthy_VStr username) by assumption.
  rewrite (truthy_VStr role) by (apply valid_role_nonempty; assumption).
  rewrite (truthy_VStr (sha256_hexdigest role)) by apply sha256_hexdigest_nonempty.
  cbn [negb orb]. rewrite validate_role_digest by assumption.
  cbn [bind negb get_by_value].
  destruct Hdb as [-> | (user & -> & ->)]; reflexivity.
Qed.
End store_lemmas.

(** C7 (amended): for every token that [jwt.decode] accepts (validly
    signed, unexpired, with the expected issuer and audience) and that
    passes the subject and role checks (a non-empty [sub], a [role] that
    is ["user"] or ["admin"], the [role_hash] that is the digest of the
    role), whose subject is absent from the store or inactive at
    verification, [verify_token] raises "User not found or inactive"; in
    particular a token minted for a user, which verifies while the user
    is active, is refused this way, inside its lifetime, against a store
    where the user is inactive or gone. *)
Theorem verify_token_user_not_found_or_inactive
    {hashlib_impl : Hashlib} {pwd_context : CryptContext} {jose_impl : Jose}
    (settings : Settings) (username : string) :
  (forall (db : users_db) (now : Z) (t : token) (role : string),
     decode settings t now = Return (claims t) ->
     claims t !! "sub" = Some (VStr username) -> username <> "" ->
     claims t !! "role" = Some (VStr role) -> role = "user" \/ role = "admin" ->
     claims t !! "role_hash" = Some (VStr (sha256_hexdigest role)) ->
     absent_or_inactive db username ->
     verify_token settings db now t = RaiseHTTP user_not_found_or_inactive) /\
  (forall (db db' : users_db) (role : string) (now : Z) (jti : string)
          (now' now'' : Z) (user : db_user),
     signing_configured settings ->
     role = "user" \/ role = "admin" -> username <> "" ->
     db !! username = Some user -> is_active user = true ->
     absent_or_inactive db' username ->
     now <= now' <= now + timedelta_minutes (access_token_expire_minutes settings) ->
     now <= now'' <= now + timedelta_minutes (access_token_expire_minutes settings) ->
     exists t,
       create_access_token settings (token_data username role) None now jti = Return t /\
       verify_token settings db now' t = Return (claims t) /\
       verify_token settings db' now'' t = RaiseHTTP user_not_found_or_inactive).
Proof.
  split.
  - intros db now t role Hd Hsub Hname Hrl Hrole Hrh Hdb.
    rewrite (verify_token_decoded settings db now t (claims t) Hd).
    apply claims_checks_absent_or_inactive with username role; assumption.
  - intros db db' role now jti now' now'' user Halg Hrole Hname Hdb Hact Hdb' Hn' Hn''.
    eexists. split; [apply create_access_token_token_data; assumption |].
    cbn [claims]. split.
    + rewrite (verify_token_decoded settings db now' _
                 (minted_claims settings username role now jti))
        by (apply decode_minted; assumption).
      rewrite claims_checks_minted by assumption. rewrite Hdb, Hact. reflexivity.
    + rewrite (verify_token_decoded settings db' now'' _
                 (minted_claims settings username role now jti))
        by (apply decode_minted; assumption).
      rewrite claims_checks_minted by assumption.
      destruct Hdb' as [-> | (user' & -> & ->)]; reflexivity.
Qed.

Lemma verify_token_user_not_found_or_inactive_witness :
  toy_verify_token default_settings deactivated_db 1700000001000000 usuario_token
    = RaiseHTTP user_not_found_or_inactive /\
  exists t,
    toy_create_access_token default_settings (token_data "usuario" "user") None
      1700000000000000 "jti-0" = Return t /\
    toy_verify_token default_settings toy_users_db 1700000001000000 t
      = Return (claims t) /\
    toy_verify_token default_settings deactivated_db 1700000002000000 t
      = RaiseHTTP user_not_found_or_inactive.
Proof.
  pose proof (verify_token_user_not_found_or_inactive (hashlib_impl := Toy.hashlib)
                (pwd_context := Toy.crypt_context) (jose_impl := Toy.jose)
                default_settings "usuario") as [Hgen Hmint].
  split.
  - apply (Hgen deactivated_db 1700000001000000 usuario_token "user").
    + vm_compute. reflexivity.
    + reflexivity.
    + discriminate.
    + reflexivity.
    + left. reflexivity.
    + reflexivity.
    + right. eexists. split; reflexivity.
  - apply (Hmint toy_users_db deactivated_db "user" 1700000000000000 "jti-0"
             1700000001000000 1700000002000000
             (mkDbUser "usuario" "user" (Toy.bcrypt "L0XuwPOdS5U") true
                (Toy.hexdigest "user"))).
    + reflexivity.
    + left. reflexivity.
    + discriminate.
    + reflexivity.
    + reflexivity.
    + right. eexists. split; reflexivity.
    + vm_compute. split; discriminate.
    + vm_compute. split; discriminate.
Defined.

(** C7 as stated fails: the token for [ghost] is validly signed and
    unexpired and the store holds no [ghost], but its role is outside
    [VALID_ROLES] and the role check, which comes before the store
    lookup, refuses it as role tampering; validly signed and unexpired
    too, the token whose subject is the empty string, which names no
    user of the store, is refused for its missing subject. *)
Lemma verify_token_user_not_found_or_inactive_counterexample :
  (toy_validly_signed default_settings ghost_token /\
   claims ghost_token !! "exp" = Some (VInt 1700001800) /\
   claims ghost_token !! "sub" = Some (VStr "ghost") /\
   toy_users_db !! "ghost" = None /\
   toy_verify_token default_settings toy_users_db 1700000001000000 ghost_token
     = RaiseHTTP role_tampering_detected /\
   role_tampering_detected <> user_not_found_or_inactive) /\
  (toy_validly_signed default_settings empty_subject_token /\
   claims empty_subject_token !! "exp" = Some (VInt 1700001800) /\
   claims empty_subject_token !! "sub" = Some (VStr "") /\
   toy_users_db !! "" = None /\
   toy_verify_token default_settings toy_users_db 1700000001000000 empty_subject_token
     = RaiseHTTP missing_subject /\
   missing_subject <> user_not_found_or_inactive).
Proof.
  split.
  - split; [vm_compute; reflexivity |]. repeat (split; [reflexivity |]).
    discriminate.
  - split; [vm_compute; reflexivity |]. repeat (split; [reflexivity |]).
    discriminate.
Qed.

(** C8 (amended): for every token that [jwt.decode] accepts (validly
    signed, unexpired, with the expected issuer and audience), a [sub]
    claim that is missing or the empty string makes [verify_token] raise
    "Invalid token: missing subject", and a [role] or [role_hash] claim
    that is missing, [null] or the empty string makes it raise a
    malformed-token failure: "Invalid token: missing role information"
    when the subject is there. *)
Theorem verify_token_malformed
    {hashlib_impl : Hashlib} {pwd_context : CryptContext} {jose_impl : Jose}
    (settings : Settings) (db : users_db) (now : Z) (t : token) :
  decode settings t now = Return (claims t) ->
  (claims t !! "sub" = None \/ claims t !! "sub" = Some (VStr "") ->
   verify_token settings db now t = RaiseHTTP missing_subject) /\
  (missing_or_empty (claims t) "role" \/ missing_or_empty (claims t) "role_hash" ->
   exists e, verify_token settings db now t = RaiseHTTP e /\ MalformedToken e /\
             (truthy (dict_get (claims t) "sub") = true ->
              e = missing_role_information)).
Proof.
  intros Hd. rewrite (verify_token_decoded settings db now t (claims t) Hd).
  unfold claims_checks, MalformedToken. split.
  - intros Hsub.
    assert (Hm : missing_or_empty (claims t) "sub")
      by (unfold missing_or_empty; tauto).
    rewrite (missing_or_empty_falsy _ _ Hm). reflexivity.
  - intros Hrole.
    destruct (truthy (dict_get (claims t) "sub")); cbn [negb].
    + assert (Hor : negb (truthy (dict_get (claims t) "role"))
                    || negb (truthy (dict_get (claims t) "role_hash")) = true).
      { destruct Hrole as [Hm | Hm]; rewrite (missing_or_empty_falsy _ _ Hm);
          cbn [negb orb]; [reflexivity | apply orb_true_r]. }
      rewrite Hor. eauto.
    + exists missing_subject. split; [reflexivity |]. split; [auto | discriminate].
Qed.

Lemma verify_token_malformed_witness :
  toy_verify_token default_settings toy_users_db 1700000001000000 no_subject_token
    = RaiseHTTP missing_subject /\
  toy_verify_token default_settings toy_users_db 1700000001000000 empty_subject_token
    = RaiseHTTP missing_subject /\
  exists e,
    toy_verify_token default_settings toy_users_db 1700000001000000 empty_role_token
      = RaiseHTTP e /\ MalformedToken e /\
    (truthy (dict_get (claims empty_role_token) "sub") = true ->
     e = missing_role_information).
Proof.
  split; [| split].
  - apply (verify_token_malformed (hashlib_impl := Toy.hashlib)
             (pwd_context := Toy.crypt_context) (jose_impl := Toy.jose)
             default_settings toy_users_db 1700000001000000 no_subject_token).
    + vm_compute. reflexivity.
    + left. reflexivity.
  - apply (verify_token_malformed (hashlib_impl := Toy.hashlib)
             (pwd_context := Toy.crypt_context) (jose_impl := Toy.jose)
             default_settings toy_users_db 1700000001000000 empty_subject_token).
    + vm_compute. reflexivity.
    + right. reflexivity.
  - apply (verify_token_malformed (hashlib_impl := Toy.hashlib)
             (pwd_context := Toy.crypt_context) (jose_impl := Toy.jose)
             default_settings toy_users_db 1700000001000000 empty_role_token).
    + vm_compute. reflexivity.
    + left. right. right. reflexivity.
Defined.

(** C8 as stated fails: the token without subject is validly signed,
    and one second after its expiry it is refused as expired, which is
    not a malformed-token failure; and the validly signed token whose
    subject is [null] is refused by [jwt.decode], with "Subject must be
    a string.". *)
Lemma verify_token_malformed_counterexample :
  (toy_validly_signed default_settings no_subject_token /\
   claims no_subject_token !! "sub" = None /\
   toy_verify_token default_settings toy_users_db 1700001801000000 no_subject_token
     = RaiseHTTP signature_has_expired /\
   ~ MalformedToken signature_has_expired) /\
  (toy_validly_signed default_settings null_subject_token /\
   claims null_subject_token !! "sub" = Some VNone /\
   toy_verify_token default_settings toy_users_db 1700000001000000 null_subject_token
     = RaiseHTTP (mkHTTPException HTTP_401_UNAUTHORIZED
                    "Invalid token: Subject must be a string.") /\
   ~ MalformedToken (mkHTTPException HTTP_401_UNAUTHORIZED
                       "Invalid token: Subject must be a string.")).
Proof.
  split.
  - split; [vm_compute; reflexivity |]. split; [reflexivity |].
    split; [vm_compute; reflexivity |]. intros [He | He]; discriminate He.
  - split; [vm_compute; reflexivity |]. split; [reflexivity |].
    split; [vm_compute; reflexivity |]. intros [He | He]; discriminate He.
Qed.

Section accepted_roles.
Context {hashlib_impl : Hashlib} {pwd_context : CryptContext} {jose_impl : Jose}.
Variable settings : Settings.

(** When [verify_token] returns, the token decoded and its claims
    passed the checks. *)
Lemma verify_token_Return db now t p :
  verify_token settings db now t = Return p ->
  decode settings t now = Return p /\ claims_checks db p = Return p.
Proof.
  unfold verify_token. intros Hv.
  destruct (decode settings t now) as [p' | e | msg | cls] eqn:Hd;
    cbn [bind except_JWTError] in Hv; try discriminate.
  change (except_JWTError (claims_checks db p') = Return p) in Hv.
  destruct (claims_checks db p') as [q | e | msg | cls] eqn:Hc;
    cbn [except_JWTError] in Hv; try discriminate.
  injection Hv as ->.
  assert (p' = p) as ->.
  { unfold claims_checks in Hc.
    destruct (negb (truthy (dict_get p' "sub"))); [discriminate |].
    destruct (negb (truthy (dict_get p' "role"))
              || negb (truthy (dict_get p' "role_hash"))); [discriminate |].
    apply bind_Return_inv in Hc as (ok & _ & Hc).
    destruct (negb ok); [discriminate |].
    apply bind_Return_inv in Hc as (stored & _ & Hc).
    repeat case_match; congruence. }
  auto.
Qed.

(** Claims that pass the checks name a role of [VALID_ROLES]. *)
Lemma claims_checks_Return_role db p q :
  claims_checks db p = Return q ->
  exists role, p !! "role" = Some (VStr role) /\ (role = "user" \/ role = "admin").
Proof.
  unfold claims_checks. intros Hc.
  destruct (negb (truthy (dict_get p "sub"))); [discriminate |].
  destruct (negb (truthy (dict_get p "role")) || negb (truthy (dict_get p "role_hash")));
    [discriminate |].
  destruct (validate_role (dict_get p "role") (dict_get p "role_hash"))
    as [ok | | |] eqn:Hv; cbn [bind] in Hc; try discriminate.
  destruct ok; cbn [negb] in Hc; [| discriminate].
  unfold validate_role, dict_get in Hv.
  destruct (p !! "role") as [[| role | | |] |] eqn:Hrole;
    cbv [default from_option id] in Hv; cbn [get_by_value bind] in Hv;
    try discriminate.
  destruct (VALID_ROLES !! role) as [tag |] eqn:Hl; [| discriminate].
  exists role. split; [reflexivity |].
  apply VALID_ROLES_lookup in Hl. tauto.
Qed.
End accepted_roles.

(** C9 (amended): [verify_token] returns only for tokens whose [role]
    claim is ["user"] or ["admin"]; for every token that [jwt.decode]
    accepts (correctly signed, unexpired, with the expected issuer and
    audience), with a non-empty subject and any other non-empty role
    string, [validate_role] is false whatever the tag, and
    [verify_token] raises the role-tampering failure when the
    [role_hash] is not missing or empty, in particular when it is the
    SHA-256 digest of that role string. *)
Theorem verify_token_valid_roles_only
    {hashlib_impl : Hashlib} {pwd_context : CryptContext} {jose_impl : Jose}
    (settings : Settings) (db : users_db) (now : Z) (t : token) :
  (forall p, verify_token settings db now t = Return p ->
     exists role, claims t !! "role" = Some (VStr role) /\
                  (role = "user" \/ role = "admin")) /\
  (forall role : string,
     decode settings t now = Return (claims t) ->
     truthy (dict_get (claims t) "sub") = true ->
     claims t !! "role" = Some (VStr role) ->
     role <> "" -> role <> "user" -> role <> "admin" ->
     (forall role_hash, validate_role (VStr role) role_hash = Return false) /\
     (truthy (dict_get (claims t) "role_hash") = true ->
      verify_token settings db now t = RaiseHTTP role_tampering_detected) /\
     (claims t !! "role_hash" = Some (VStr (sha256_hexdigest role)) ->
      verify_token settings db now t = RaiseHTTP role_tampering_detected)).
Proof.
  split.
  - intros p Hv. apply verify_token_Return in Hv as [Hd Hc].
    apply decode_Return in Hd as [-> _].
    eapply claims_checks_Return_role. exact Hc.
  - intros role Hd Hsub Hrole Hne Hu Ha.
    assert (Hfalse : forall role_hash, validate_role (VStr role) role_hash = Return false).
    { intros role_hash. apply validate_role_unknown; assumption. }
    assert (Htamper : truthy (dict_get (claims t) "role_hash") = true ->
                      verify_token settings db now t = RaiseHTTP role_tampering_detected).
    { intros Hh. rewrite (verify_token_decoded settings db now t (claims t) Hd).
      apply claims_checks_tampering; try assumption.
      - unfold dict_get. rewrite Hrole. apply truthy_VStr. assumption.
      - unfold dict_get at 1. rewrite Hrole. apply Hfalse. }
    split; [exact Hfalse |]. split; [exact Htamper |].
    intros Hh. apply Htamper. unfold dict_get. rewrite Hh.
    apply truthy_VStr, sha256_hexdigest_nonempty.
Qed.

Lemma verify_token_valid_roles_only_witness :
  (exists role, claims usuario_token !! "role" = Some (VStr role) /\
                (role = "user" \/ role = "admin")) /\
  toy_verify_token default_settings toy_users_db 1700000001000000 superuser_token
    = RaiseHTTP role_tampering_detected.
Proof.
  split.
  - apply (proj1 (verify_token_valid_roles_only (hashlib_impl := Toy.hashlib)
             (pwd_context := Toy.crypt_context) (jose_impl := Toy.jose)
             default_settings toy_users_db 1700000001000000 usuario_token)
             (claims usuario_token)).
    vm_compute. reflexivity.
  - apply (proj2 (verify_token_valid_roles_only (hashlib_impl := Toy.hashlib)
             (pwd_context := Toy.crypt_context) (jose_impl := Toy.jose)
             default_settings toy_users_db 1700000001000000 superuser_token)
             "superuser").
    + vm_compute. reflexivity.
    + reflexivity.
    + reflexivity.
    + discriminate.
    + discriminate.
    + discriminate.
    + reflexivity.
Defined.

(** C9 as stated fails: two correctly signed, unexpired tokens carry a
    role string that is not a key of [VALID_ROLES], with the digest of
    that string as tag, and are refused, but not as role tampering: the
    one whose role is the empty string for its missing role
    information, the one without a subject for its missing subject. *)
Lemma verify_token_valid_roles_only_counterexample :
  (toy_validly_signed default_settings empty_role_token /\
   claims empty_role_token !! "exp" = Some (VInt 1700001800) /\
   claims empty_role_token !! "role" = Some (VStr "") /\
   claims empty_role_token !! "role_hash" = Some (VStr (Toy.hexdigest "")) /\
   toy_verify_token default_settings toy_users_db 1700000001000000 empty_role_token
     = RaiseHTTP missing_role_information /\
   missing_role_information <> role_tampering_detected) /\
  (toy_validly_signed default_settings superuser_no_subject_token /\
   claims superuser_no_subject_token !! "exp" = Some (VInt 1700001800) /\
   claims superuser_no_subject_token !! "role" = Some (VStr "superuser") /\
   claims superuser_no_subject_token !! "role_hash"
     = Some (VStr (Toy.hexdigest "superuser")) /\
   toy_verify_token default_settings toy_users_db 1700000001000000
     superuser_no_subject_token = RaiseHTTP missing_subject /\
   missing_subject <> role_tampering_detected).
Proof.
  split.
  - split; [vm_compute; reflexivity |]. repeat (split; [reflexivity |]).
    discriminate.
  - split; [vm_compute; reflexivity |]. repeat (split; [reflexivity |]).
    discriminate.
Qed.

(** ** The use case against [authenticate_user] *)

Section use_case_lemmas.
Context {hashlib_impl : Hashlib} {pwd_context : CryptContext} {jose_impl : Jose}.
Variable settings : Settings.

(** Minting from the use case's [token_data] never raises an
    [HTTPException]. *)
Lemma create_access_token_no_HTTPException data expires_delta now jti e :
  create_access_token settings data expires_delta now jti <> RaiseHTTP e.
Proof.
  unfold create_access_token, jwt_encode.
  repeat case_match; cbn [bind]; repeat case_match; discriminate.
Qed.

(** The use case on a repository entry that is active and whose
    password verifies: a token, and the user's data. *)
Lemma authenticate_success repo username password now jti user hashed :
  signing_configured settings ->
  repo !! username = Some user ->
  entities.is_active user = true ->
  entities.password_hash user = Some hashed -> hashed <> "" ->
  verify_password password hashed = Return true ->
  exists t,
    create_access_token settings
      (token_data (entities.username user)
         (entities.UserRole_value (entities.role user))) None now jti = Return t /\
    authenticate settings repo username password now jti =
    Return (Some (mkAuthResult t "bearer"
                    (mkIdentity (entities.username user)
                       (entities.UserRole_value (entities.role user)) true))).
Proof.
  intros Halg Hrepo Hact Hhash Hne Hpw.
  eexists. split; [apply create_access_token_token_data; assumption |].
  unfold authenticate, get_by_username.
  rewrite Hrepo, Hact, Hhash. cbn [negb].
  destruct (String.eqb_spec hashed ""); [contradiction |].
  rewrite Hpw. cbn [bind negb].
  rewrite create_access_token_token_data by assumption. reflexivity.
Qed.

(** Password verification raises no [HTTPException]. *)
Lemma verify_password_no_HTTPException plain hashed e :
  verify_password plain hashed <> RaiseHTTP e.
Proof.
  unfold verify_password.
  destruct (pwd_context_verify_outcome plain hashed) as [[b ->] | [cls ->]];
    discriminate.
Qed.

(** What the use case does once the repository entry is found active
    with a non-empty hash: it is decided by the verification. *)
Lemma authenticate_verified repo username password now jti user hashed :
  repo !! username = Some user ->
  entities.is_active user = true ->
  entities.password_hash user = Some hashed -> hashed <> "" ->
  authenticate settings repo username password now jti =
  do verified <- verify_password password hashed;
  if negb verified then Return None
  else
    do access_token <-
      create_access_token settings
        (token_data (entities.username user)
           (entities.UserRole_value (entities.role user))) None now jti;
    Return (Some (mkAuthResult access_token "bearer"
                    (mkIdentity (entities.username user)
                       (entities.UserRole_value (entities.role user)) true))).
Proof.
  intros Hrepo Hact Hhash Hne. unfold authenticate, get_by_username.
  rewrite Hrepo, Hact, Hhash. cbn [negb].
  destruct (String.eqb_spec hashed ""); [contradiction |]. reflexivity.
Qed.
End use_case_lemmas.

(** C10 (amended): [AuthenticationUseCase.authenticate] makes no
    role-integrity check.  For every input it never raises an
    [HTTPException], so never the integrity violation, whatever the
    stored role data; whenever the password verification it makes
    returns, and the signing configuration is usable, it returns [None]
    or a success result; and it differs from [authenticate_user]: for an
    active record whose password verifies and whose role tag was
    tampered with, [authenticate_user] raises the integrity violation
    while the use case, on the entity with the same data, returns a
    success result. *)
Theorem authenticate_no_integrity_check
    {hashlib_impl : Hashlib} {pwd_context : CryptContext} {jose_impl : Jose}
    (settings : Settings) (repo : user_repository) (username password : string)
    (now : Z) (jti : string) :
  (forall e, authenticate settings repo username password now jti <> RaiseHTTP e) /\
  (signing_configured settings ->
   (forall entity hashed,
      repo !! username = Some entity -> entities.is_active entity = true ->
      entities.password_hash entity = Some hashed -> hashed <> "" ->
      exists b, verify_password password hashed = Return b) ->
   authenticate settings repo username password now jti = Return None \/
   exists r, authenticate settings repo username password now jti = Return (Some r)) /\
  (forall (db : users_db) (stored : db_user) (r : entities.UserRole),
     signing_configured settings ->
     db !! username = Some stored ->
     repo !! username = Some (entity_of stored r) ->
     role stored = entities.UserRole_value r ->
     is_active stored = true ->
     password_hash stored <> "" ->
     verify_password password (password_hash stored) = Return true ->
     is_ascii (role_hash stored) = true ->
     role_hash stored <> sha256_hexdigest (role stored) ->
     snd (authenticate_user db username password) = RaiseHTTP security_violation /\
     exists res, authenticate settings repo username password now jti
                 = Return (Some res) /\
                 id_role (user res) = role stored).
Proof.
  split; [| split].
  - intros e. unfold authenticate, get_by_username.
    destruct (repo !! username) as [entity |]; [| discriminate].
    destruct (negb (entities.is_active entity)); [discriminate |].
    destruct (entities.password_hash entity) as [hashed |]; [| discriminate].
    destruct (String.eqb hashed ""); [discriminate |].
    pose proof (verify_password_no_HTTPException password hashed e) as Hpw.
    destruct (verify_password password hashed) as [verified | | |];
      cbn [bind]; try congruence; try discriminate.
    destruct (negb verified); [discriminate |].
    pose proof (create_access_token_no_HTTPException settings
                  (token_data (entities.username entity)
                     (entities.UserRole_value (entities.role entity))) None now jti e)
      as Hc.
    destruct (create_access_token _ _ _ _ _); cbn [bind]; congruence.
  - intros Halg Hverify. unfold authenticate, get_by_username.
    destruct (repo !! username) as [entity |] eqn:Hrepo; [| auto].
    destruct (entities.is_active entity) eqn:Hact; cbn [negb]; [| auto].
    destruct (entities.password_hash entity) as [hashed |] eqn:Hhash; [| auto].
    destruct (String.eqb_spec hashed "") as [Heq | Hne]; [auto |].
    destruct (Hverify entity hashed eq_refl Hact Hhash Hne) as [verified ->].
    cbn [bind].
    destruct (negb verified); [auto |].
    rewrite create_access_token_token_data by assumption. cbn [bind]. eauto.
  - intros db stored r Halg Hdb Hrepo Hrole Hact Hne Hpw Hascii Htag. split.
    + apply authenticate_user_raises with stored; try assumption.
      intros Hl. apply VALID_ROLES_lookup in Hl as [_ Hl]. contradiction.
    + destruct (authenticate_success settings repo username password now jti
                  (entity_of stored r) (password_hash stored) Halg Hrepo Hact eq_refl
                  Hne Hpw) as (t & _ & Hauth).
      eexists. split; [exact Hauth |]. cbn. symmetry. exact Hrole.
Qed.

Lemma authenticate_no_integrity_check_witness :
  (toy_authenticate default_settings toy_repository "usuario" "L0XuwPOdS5U"
     1700000000000000 "jti-0" = Return None \/
   exists r, toy_authenticate default_settings toy_repository "usuario" "L0XuwPOdS5U"
               1700000000000000 "jti-0" = Return (Some r)) /\
  (snd (toy_authenticate_user tampered_db "usuario" "L0XuwPOdS5U")
     = RaiseHTTP security_violation /\
   exists res, toy_authenticate default_settings toy_repository "usuario" "L0XuwPOdS5U"
                 1700000000000000 "jti-0" = Return (Some res) /\
               id_role (user res) = "user").
Proof.
  pose proof (authenticate_no_integrity_check (hashlib_impl := Toy.hashlib)
                (pwd_context := Toy.crypt_context) (jose_impl := Toy.jose)
                default_settings toy_repository "usuario" "L0XuwPOdS5U"
                1700000000000000 "jti-0") as (_ & Hres & Hdiff).
  split.
  - apply Hres; [reflexivity |].
    intros entity hashed Hrepo _ Hhash _. vm_compute in Hrepo.
    injection Hrepo as <-. injection Hhash as <-. eexists. vm_compute. reflexivity.
  - apply (Hdiff tampered_db
             (mkDbUser "usuario" "user" (Toy.bcrypt "L0XuwPOdS5U") true "0000")
             entities.USER).
    + reflexivity.
    + reflexivity.
    + reflexivity.
    + reflexivity.
    + reflexivity.
    + discriminate.
    + reflexivity.
    + reflexivity.
    + vm_compute. discriminate.
Defined.

(** C10 as stated fails: on the stored user [usuario] and a password
    that holds a NUL character, the password verification raises
    [ValueError] and the use case lets it through: it returns neither
    [None] nor a success result. *)
Lemma authenticate_no_integrity_check_counterexample :
  has_NUL nul_password = true /\
  toy_authenticate default_settings toy_repository "usuario" nul_password
    1700000000000000 "jti-0" = RaisePy "ValueError" /\
  toy_authenticate default_settings toy_repository "usuario" nul_password
    1700000000000000 "jti-0" <> Return None.
Proof.
  split; [reflexivity |]. split; [vm_compute; reflexivity |].
  vm_compute. discriminate.
Qed.

(** * Further properties of the code *)

(** ** The role check and the authenticator *)

(** When [validate_role] returns [True], the role is a key of
    [VALID_ROLES] and the tag its digest. *)
Lemma validate_role_Return_true {hashlib_impl : Hashlib} (role role_hash : value) :
  validate_role role role_hash = Return true ->
  exists r, role = VStr r /\ (r = "user" \/ r = "admin") /\
            role_hash = VStr (sha256_hexdigest r).
Proof.
  unfold validate_role, compare_digest. intros Hv.
  destruct role as [| r | | |]; cbn [get_by_value bind] in Hv; try discriminate.
  destruct (VALID_ROLES !! r) as [tag |] eqn:Hl; [| discriminate].
  apply VALID_ROLES_lookup in Hl as [Hr ->].
  destruct role_hash as [| s | | |]; try discriminate.
  destruct (is_ascii (sha256_hexdigest r) && is_ascii s); [| discriminate].
  injection Hv as Hv. apply String.eqb_eq in Hv as <-.
  exists r. auto.
Qed.

(** X1: [validate_role] returns [True] exactly for the role ["user"] or
    ["admin"] given as a string together with the SHA-256 digest of that
    role name as a string. *)
Theorem validate_role_true_iff {hashlib_impl : Hashlib} (role role_hash : value) :
  validate_role role role_hash = Return true <->
  exists r, role = VStr r /\ (r = "user" \/ r = "admin") /\
            role_hash = VStr (sha256_hexdigest r).
Proof.
  split.
  - apply validate_role_Return_true.
  - intros (r & -> & Hr & ->). apply validate_role_digest. assumption.
Qed.

(** X2: [authenticate_user] returns an identity exactly when the store
    holds an active record under the user name, the password verifies
    against its hash, its role is ["user"] or ["admin"] and its stored
    tag is the digest of the role; the identity is then the record's
    user name and role, with [is_active] true. *)
Theorem authenticate_user_Some_iff
    {hashlib_impl : Hashlib} {pwd_context : CryptContext}
    (db : users_db) (username password : string) (id : identity) :
  snd (authenticate_user db username password) = Return (Some id) <->
  exists user,
    db !! username = Some user /\
    is_active user = true /\
    verify_password password (password_hash user) = Return true /\
    (role user = "user" \/ role user = "admin") /\
    role_hash user = sha256_hexdigest (role user) /\
    id = mkIdentity (user_get_username user) (role user) true.
Proof.
  unfold authenticate_user. split.
  - intros Ha. destruct (db !! username) as [user |].
    2:{ cbn [snd] in Ha.
        destruct (pwd_context_verify password dummy_hash); discriminate. }
    exists user.
    destruct (is_active user) eqn:Hact; cbn [negb snd] in Ha; [| discriminate].
    destruct (verify_password password (password_hash user)) as [verified | | |]
      eqn:Hpw; cbn [bind] in Ha; try discriminate.
    destruct verified; cbn [negb] in Ha; [| discriminate].
    destruct (validate_role (VStr (role user)) (VStr (role_hash user)))
      as [ok | | |] eqn:Hv; cbn [bind] in Ha; try discriminate.
    destruct ok; cbn [negb] in Ha; [| discriminate].
    apply validate_role_Return_true in Hv as (r & [= <-] & Hr & [= Hh]).
    injection Ha as <-. auto 10.
  - intros (user & -> & Hact & Hpw & Hr & Hh & ->).
    rewrite Hact, Hpw. cbn [negb snd bind]. rewrite Hh.
    rewrite validate_role_digest by assumption. reflexivity.
Qed.


(** ** [get_user_from_token] *)


(** What claims that pass the checks of [verify_token] look like. *)
Lemma claims_checks_Return_inv {hashlib_impl : Hashlib}
    (db : users_db) (p q : payload) :
  claims_checks db p = Return q ->
  q = p /\
  exists u r user,
    p !! "sub" = Some (VStr u) /\ u <> "" /\
    p !! "role" = Some (VStr r) /\ (r = "user" \/ r = "admin") /\
    p !! "role_hash" = Some (VStr (sha256_hexdigest r)) /\
    db !! u = Some user /\ is_active user = true.
Proof.
  unfold claims_checks. intros Hc.
  destruct (truthy (dict_get p "sub")) eqn:Hsub; cbn [negb] in Hc; [| discriminate].
  destruct (negb (truthy (dict_get p "role")) || negb (truthy (dict_get p "role_hash")));
    [discriminate |].
  destruct (validate_role (dict_get p "role") (dict_get p "role_hash"))
    as [ok | | |] eqn:Hv; cbn [bind] in Hc; try discriminate.
  destruct ok; cbn [negb] in Hc; [| discriminate].
  apply validate_role_Return_true in Hv as (r & Hrole & Hr & Hhash).
  unfold dict_get in *.
  destruct (p !! "sub") as [[| u | | |] |]; cbv [default from_option id] in Hc, Hsub;
    cbn [get_by_value bind] in Hc; try discriminate.
  destruct (db !! u) as [user |] eqn:Hdb; [| discriminate].
  destruct (is_active user) eqn:Hact; cbn [negb] in Hc; [| discriminate].
  injection Hc as <-. split; [reflexivity |].
  exists u, r, user.
  destruct (p !! "role") as [v |]; cbv [default from_option id] in Hrole; [| discriminate].
  destruct (p !! "role_hash") as [h |]; cbv [default from_option id] in Hhash;
    [| discriminate].
  subst v h.
  repeat split; try reflexivity; try assumption.
  intros ->. discriminate.
Qed.

(** X5: after [verify_token] has returned a payload, [get_user_from_token]
    on that payload and the same store does not raise: it returns the
    record stored under the subject, which is active; its role is the
    stored role. *)
Theorem get_user_from_token_verified
    {hashlib_impl : Hashlib} {pwd_context : CryptContext} {jose_impl : Jose}
    (settings : Settings) (db : users_db) (now : Z) (t : token) (p : payload) :
  verify_token settings db now t = Return p ->
  exists u user,
    p !! "sub" = Some (VStr u) /\ db !! u = Some user /\ is_active user = true /\
    get_user_from_token db p =
      Return (mkIdentity (user_get_username user) (role user) true).
Proof.
  intros Hv. apply verify_token_Return in Hv as [_ Hc].
  apply claims_checks_Return_inv in Hc as (_ & u & r & user & Hsub & _ & _ & _ & _ & Hdb & Hact).
  exists u, user. repeat split; try assumption.
  unfold get_user_from_token, dict_get. rewrite Hsub. cbv [default from_option id].
  cbn [get_by_value bind]. rewrite Hdb, Hact. reflexivity.
Qed.

(** Claims that pass [_validate_claims] pass each of its checks. *)
Lemma _validate_claims_Return_inv {jose_impl : Jose}
    (c : payload) (now : Z) (audience issuer : string) (u : unit) :
  _validate_claims c now audience issuer = Return u ->
  _validate_nbf c now = Return tt /\ _validate_exp c now = Return tt /\
  _validate_aud c audience = Return tt /\ _validate_iss c issuer = Return tt.
Proof.
  unfold _validate_claims. intros Hv.
  destruct (_validate_iat c) as [[] | | |]; cbn [bind] in Hv; try discriminate.
  destruct (_validate_nbf c now) as [[] | | |]; cbn [bind] in Hv; try discriminate.
  destruct (_validate_exp c now) as [[] | | |]; cbn [bind] in Hv; try discriminate.
  destruct (_validate_aud c audience) as [[] | | |]; cbn [bind] in Hv; try discriminate.
  destruct (_validate_iss c issuer) as [[] | | |]; cbn [bind] in Hv; try discriminate.
  auto.
Qed.

(** Decoding returns only claims that pass [_validate_claims]. *)
Lemma decode_Return_validated
    {hashlib_impl : Hashlib} {pwd_context : CryptContext} {jose_impl : Jose}
    (settings : Settings) (t : token) (now : Z) (p : payload) :
  decode settings t now = Return p ->
  _validate_claims p now "teste-tivit-client" "teste-tivit-api" = Return tt.
Proof.
  unfold decode, jwt_decode. intros Hd.
  apply bind_Return_inv in Hd as (c & _ & Hd).
  apply bind_Return_inv in Hd as ([] & Hval & Hd).
  injection Hd as <-. exact Hval.
Qed.

(** X6: when [verify_token] returns, it returns the claims of the token
    unchanged; the token is validly signed, its subject is a non-empty
    string naming an active record of the store, its role is ["user"] or
    ["admin"], its [role_hash] is the digest of the role, its issuer is
    ["teste-tivit-api"], and its audience, when present, is
    ["teste-tivit-client"] or a list of strings that holds it. *)
Theorem verify_token_Return_inv
    {hashlib_impl : Hashlib} {pwd_context : CryptContext} {jose_impl : Jose}
    (settings : Settings) (db : users_db) (now : Z) (t : token) (p : payload) :
  verify_token settings db now t = Return p ->
  p = claims t /\ validly_signed settings t /\
  (exists u r user,
     p !! "sub" = Some (VStr u) /\ u <> "" /\
     p !! "role" = Some (VStr r) /\ (r = "user" \/ r = "admin") /\
     p !! "role_hash" = Some (VStr (sha256_hexdigest r)) /\
     db !! u = Some user /\ is_active user = true) /\
  p !! "iss" = Some (VStr "teste-tivit-api") /\
  (p !! "aud" = None \/ p !! "aud" = Some (VStr "teste-tivit-client") \/
   exists l, p !! "aud" = Some (VList l) /\
             VStr "teste-tivit-client" ∈ l /\
             forall v, v ∈ l -> exists a, v = VStr a).
Proof.
  intros Hv. apply verify_token_Return in Hv as [Hd Hc].
  pose proof (decode_Return_validated settings t now p Hd) as Hval.
  apply _validate_claims_Return_inv in Hval as (_ & _ & Haud & Hiss).
  destruct (decode_Return settings t now p Hd) as [-> Hs].
  apply claims_checks_Return_inv in Hc as [_ Hc].
  repeat split; try assumption.
  - unfold _validate_iss, dict_get in Hiss. case_bool_decide as Heq; [| discriminate].
    destruct (claims t !! "iss") as [v |]; cbv [default from_option id] in Heq;
      [congruence | discriminate].
  - unfold _validate_aud in Haud.
    destruct (claims t !! "aud") as [[| a | | | l] |]; try discriminate; [| | auto].
    + destruct (String.eqb_spec "teste-tivit-client" a) as [Heq | _]; [| discriminate].
      subst a. auto.
    + destruct (forallb _ l) eqn:Hall; cbn [negb] in Haud; [| discriminate].
      case_bool_decide as Hin; [| discriminate].
      right. right. exists l. split; [reflexivity |]. split; [exact Hin |].
      intros v Hv. rewrite forallb_forall in Hall.
      apply list_elem_of_In in Hv. specialize (Hall v Hv).
      destruct v; try discriminate. eauto.
Qed.

(** ** Minting, for any claims and any lifetime *)

Lemma time_claim_to_int_lookup_ne (c : payload) k k' :
  k <> k' -> time_claim_to_int c k !! k' = c !! k'.
Proof.
  intros Hne. unfold time_claim_to_int.
  destruct (c !! k) as [[| | | us |] |]; try reflexivity.
  apply lookup_insert_ne. assumption.
Qed.

Lemma time_claim_to_int_lookup_date (c : payload) k us :
  c !! k = Some (VDate us) -> time_claim_to_int c k !! k = Some (VInt (timegm us)).
Proof. intros Hc. unfold time_claim_to_int. rewrite Hc. apply lookup_insert_eq. Qed.

(** Lookups through the insertions and conversions of
    [create_access_token], at claim names written out. *)
Ltac lookup_claims :=
  repeat first
    [ rewrite lookup_insert_eq
    | rewrite lookup_insert_ne by (discriminate || congruence)
    | rewrite time_claim_to_int_lookup_ne by (discriminate || congruence) ].

Section minting_any.
Context {hashlib_impl : Hashlib} {pwd_context : CryptContext} {jose_impl : Jose}.
Variable settings : Settings.

(** The dictionary [create_access_token] hands to [jwt.encode]. *)
Lemma create_access_token_unfold data expires_delta now jti :
  create_access_token settings data expires_delta now jti =
  let base :=
    <["aud" := VStr "teste-tivit-client"]>
    (<["iss" := VStr "teste-tivit-api"]>
    (<["jti" := VStr jti]>
    (<["nbf" := VDate now]>
    (<["iat" := VDate now]>
    (<["exp" := VDate (now + token_lifetime settings expires_delta)]> data))))) in
  match data !! "role" with
  | None => jwt_encode base (secret_key settings) (algorithm settings)
  | Some (VStr r) =>
      jwt_encode (<["role_hash" := VStr (sha256_hexdigest r)]> base)
        (secret_key settings) (algorithm settings)
  | Some _ => RaisePy "AttributeError"
  end.
Proof.
  unfold create_access_token, token_lifetime. cbv zeta.
  assert (He : (match expires_delta with
                | Some d => if negb (Z.eqb d 0) then now + d
                            else now + timedelta_minutes (access_token_expire_minutes settings)
                | None => now + timedelta_minutes (access_token_expire_minutes settings)
                end) =
               now + (match expires_delta with
                      | Some d => if Z.eqb d 0
                                  then timedelta_minutes (access_token_expire_minutes settings)
                                  else d
                      | None => timedelta_minutes (access_token_expire_minutes settings)
                      end)).
  { destruct expires_delta as [d |]; [| reflexivity]. destruct (Z.eqb d 0); reflexivity. }
  rewrite He. lookup_claims.
  destruct (data !! "role") as [[| r | | |] |]; reflexivity.
Qed.

(** The claims [jwt.encode] signs, key by key, when the time claims were
    given as dates. *)
Lemma jwt_encode_Return c key alg t exp iat nbf :
  c !! "exp" = Some (VDate exp) -> c !! "iat" = Some (VDate iat) ->
  c !! "nbf" = Some (VDate nbf) ->
  jwt_encode c key alg = Return t ->
  header_alg t = alg /\ jws_usable key alg = true /\
  signature t = jws_signature key alg (claims t) /\
  claims t !! "exp" = Some (VInt (timegm exp)) /\
  claims t !! "iat" = Some (VInt (timegm iat)) /\
  claims t !! "nbf" = Some (VInt (timegm nbf)) /\
  (forall k, k <> "exp" -> k <> "iat" -> k <> "nbf" -> claims t !! k = c !! k).
Proof.
  intros Hexp Hiat Hnbf. unfold jwt_encode. cbv zeta. intros He.
  destruct (jws_supported alg); cbn [negb] in He; [| discriminate].
  case_bool_decide; cbn [negb] in He; [| discriminate].
  destruct (jws_usable key alg); cbn [negb] in He; [| discriminate].
  injection He as <-. cbn [header_alg claims signature].
  repeat split.
  - lookup_claims. apply time_claim_to_int_lookup_date. assumption.
  - lookup_claims. apply time_claim_to_int_lookup_date. lookup_claims. assumption.
  - apply time_claim_to_int_lookup_date. lookup_claims. assumption.
  - intros k Hk1 Hk2 Hk3. lookup_claims. reflexivity.
Qed.
End minting_any.

(** The claims of a token [create_access_token] returned, key by key. *)
Lemma create_access_token_Return_inv
    {hashlib_impl : Hashlib} {pwd_context : CryptContext} {jose_impl : Jose}
    (settings : Settings) (data : payload) (expires_delta : option Z)
    (now : Z) (jti : string) (t : token) :
  create_access_token settings data expires_delta now jti = Return t ->
  header_alg t = algorithm settings /\
  validly_signed settings t /\
  claims t !! "iss" = Some (VStr "teste-tivit-api") /\
  claims t !! "aud" = Some (VStr "teste-tivit-client") /\
  claims t !! "jti" = Some (VStr jti) /\
  claims t !! "iat" = Some (VInt (timegm now)) /\
  claims t !! "nbf" = Some (VInt (timegm now)) /\
  claims t !! "exp" = Some (VInt (timegm (now + token_lifetime settings expires_delta))) /\
  (forall r, data !! "role" = Some (VStr r) ->
     claims t !! "role_hash" = Some (VStr (sha256_hexdigest r))) /\
  (data !! "role" = None -> claims t !! "role_hash" = data !! "role_hash") /\
  (forall k, k ∉ ["exp"; "iat"; "nbf"; "jti"; "iss"; "aud"; "role_hash"] ->
     claims t !! k = data !! k).
Proof.
  rewrite create_access_token_unfold. cbv zeta. intros Hc.
  assert (Henc : exists c,
    jwt_encode c (secret_key settings) (algorithm settings) = Return t /\
    c !! "exp" = Some (VDate (now + token_lifetime settings expires_delta)) /\
    c !! "iat" = Some (VDate now) /\ c !! "nbf" = Some (VDate now) /\
    c !! "iss" = Some (VStr "teste-tivit-api") /\
    c !! "aud" = Some (VStr "teste-tivit-client") /\
    c !! "jti" = Some (VStr jti) /\
    (forall r, data !! "role" = Some (VStr r) ->
       c !! "role_hash" = Some (VStr (sha256_hexdigest r))) /\
    (data !! "role" = None -> c !! "role_hash" = data !! "role_hash") /\
    (forall k, k ∉ ["exp"; "iat"; "nbf"; "jti"; "iss"; "aud"; "role_hash"] ->
       c !! k = data !! k)).
  { destruct (data !! "role") as [[| r | | |] |] eqn:Hrole; try discriminate.
    - eexists. split; [exact Hc |].
      repeat split; lookup_claims; try reflexivity.
      + intros r' Heq. injection Heq as Heq. subst r'. lookup_claims. reflexivity.
      + discriminate.
      + intros k Hk. repeat (apply not_elem_of_cons in Hk as [? Hk]).
        lookup_claims. reflexivity.
    - eexists. split; [exact Hc |].
      repeat split; lookup_claims; try reflexivity.
      + discriminate.
      + intros k Hk. repeat (apply not_elem_of_cons in Hk as [? Hk]).
        lookup_claims. reflexivity. }
  destruct Henc as (c & Henc & Hexp & Hiat & Hnbf & Hiss & Haud & Hjti & Hrh & Hrh' & Hk).
  destruct (jwt_encode_Return c _ _ t _ _ _ Hexp Hiat Hnbf Henc)
    as (Halg & Huse & Hsig & Hexp' & Hiat' & Hnbf' & Hother).
  split; [exact Halg |]. split.
  { unfold validly_signed, jws_verify. rewrite Halg, Hsig.
    rewrite (jws_usable_nonempty _ _ Huse), Huse.
    rewrite bool_decide_eq_true_2 by (apply list_elem_of_singleton; reflexivity).
    rewrite jws_sig_matches_signature by assumption. reflexivity. }
  rewrite !Hother by discriminate.
  repeat (split; [assumption |]).
  split; [| split].
  - intros r Hr. rewrite Hother by discriminate. auto.
  - intros Hr. rewrite Hother by discriminate. auto.
  - intros k Hnotin. rewrite Hother; [auto | |  |];
      intros ->; apply Hnotin; repeat constructor.
Qed.

(** X7: when [create_access_token] returns a token, the token is validly
    signed under the configured key and algorithm; its [iss], [aud] and
    [jti] are the fixed issuer, the fixed audience and the drawn
    identifier, its [iat] and [nbf] the minting second and its [exp] the
    second of minting plus lifetime, whatever the caller's dictionary
    held under those names; with a role its [role_hash] is the digest of
    the role, without one it is the caller's; every other claim is the
    caller's. *)
Theorem create_access_token_Return
    {hashlib_impl : Hashlib} {pwd_context : CryptContext} {jose_impl : Jose}
    (settings : Settings) (data : payload) (expires_delta : option Z)
    (now : Z) (jti : string) (t : token) :
  create_access_token settings data expires_delta now jti = Return t ->
  header_alg t = algorithm settings /\
  validly_signed settings t /\
  claims t !! "iss" = Some (VStr "teste-tivit-api") /\
  claims t !! "aud" = Some (VStr "teste-tivit-client") /\
  claims t !! "jti" = Some (VStr jti) /\
  claims t !! "iat" = Some (VInt (timegm now)) /\
  claims t !! "nbf" = Some (VInt (timegm now)) /\
  claims t !! "exp" = Some (VInt (timegm (now + token_lifetime settings expires_delta))) /\
  (forall r, data !! "role" = Some (VStr r) ->
     claims t !! "role_hash" = Some (VStr (sha256_hexdigest r))) /\
  (data !! "role" = None -> claims t !! "role_hash" = data !! "role_hash") /\
  (forall k, k ∉ ["exp"; "iat"; "nbf"; "jti"; "iss"; "aud"; "role_hash"] ->
     claims t !! k = data !! k).
Proof.
  intros Hc.
  exact (create_access_token_Return_inv settings data expires_delta now jti t Hc).
Qed.

Section minting_outcomes.
Context {hashlib_impl : Hashlib} {pwd_context : CryptContext} {jose_impl : Jose}.
Variable settings : Settings.

(** The dictionary built from serializable claims is serializable once
    its time claims are integers. *)
Lemma time_claims_serializable (c : payload) exp iat nbf :
  c !! "exp" = Some (VDate exp) -> c !! "iat" = Some (VDate iat) ->
  c !! "nbf" = Some (VDate nbf) ->
  (forall k v, k <> "exp" -> k <> "iat" -> k <> "nbf" -> c !! k = Some v ->
     json_serializable v = true) ->
  map_Forall (fun _ v => json_serializable v = true)
    (time_claim_to_int (time_claim_to_int (time_claim_to_int c "exp") "iat") "nbf").
Proof.
  intros Hexp Hiat Hnbf Hother. apply map_Forall_lookup. intros k v.
  destruct (decide (k = "nbf")) as [-> | Hk1].
  { rewrite (time_claim_to_int_lookup_date _ _ nbf) by (lookup_claims; assumption).
    intros [= <-]. reflexivity. }
  destruct (decide (k = "iat")) as [-> | Hk2].
  { lookup_claims.
    rewrite (time_claim_to_int_lookup_date _ _ iat) by (lookup_claims; assumption).
    intros [= <-]. reflexivity. }
  destruct (decide (k = "exp")) as [-> | Hk3].
  { lookup_claims. rewrite (time_claim_to_int_lookup_date _ _ exp) by assumption.
    intros [= <-]. reflexivity. }
  lookup_claims. apply Hother; assumption.
Qed.

Lemma jwt_encode_configured (c : payload) exp iat nbf :
  signing_configured settings ->
  c !! "exp" = Some (VDate exp) -> c !! "iat" = Some (VDate iat) ->
  c !! "nbf" = Some (VDate nbf) ->
  (forall k v, k <> "exp" -> k <> "iat" -> k <> "nbf" -> c !! k = Some v ->
     json_serializable v = true) ->
  exists t, jwt_encode c (secret_key settings) (algorithm settings) = Return t.
Proof.
  intros Hconf Hexp Hiat Hnbf Hother. unfold jwt_encode. cbv zeta.
  unfold signing_configured in Hconf.
  rewrite Hconf, (jws_usable_supported _ _ Hconf). cbn [negb].
  rewrite bool_decide_eq_true_2
    by (eapply time_claims_serializable; eassumption).
  cbn [negb]. eauto.
Qed.
End minting_outcomes.

(** With a usable signing configuration, a role that is a string or
    absent and JSON values, [create_access_token] returns a token. *)
Lemma create_access_token_returns
    {hashlib_impl : Hashlib} {pwd_context : CryptContext} {jose_impl : Jose}
    (settings : Settings) (data : payload) (expires_delta : option Z)
    (now : Z) (jti : string) :
  signing_configured settings ->
  (forall v, data !! "role" = Some v -> exists r, v = VStr r) ->
  map_Forall (fun _ v => json_serializable v = true) data ->
  exists t, create_access_token settings data expires_delta now jti = Return t.
Proof.
  rewrite create_access_token_unfold. cbv zeta.
  intros Hconf Hrole Hdata.
  destruct (data !! "role") as [v |] eqn:Hr.
  + destruct (Hrole v eq_refl) as [r ->].
    eapply jwt_encode_configured; [assumption | lookup_claims; reflexivity .. |].
    intros k v Hk1 Hk2 Hk3. lookup_claims.
    destruct (decide (k = "role_hash")) as [-> | ?];
      [lookup_claims; intros [= <-]; reflexivity |].
    destruct (decide (k = "aud")) as [-> | ?];
      [lookup_claims; intros [= <-]; reflexivity |].
    destruct (decide (k = "iss")) as [-> | ?];
      [lookup_claims; intros [= <-]; reflexivity |].
    destruct (decide (k = "jti")) as [-> | ?];
      [lookup_claims; intros [= <-]; reflexivity |].
    lookup_claims. intros Hl. exact (Hdata k v Hl).
  + eapply jwt_encode_configured; [assumption | lookup_claims; reflexivity .. |].
    intros k v Hk1 Hk2 Hk3.
    destruct (decide (k = "aud")) as [-> | ?];
      [lookup_claims; intros [= <-]; reflexivity |].
    destruct (decide (k = "iss")) as [-> | ?];
      [lookup_claims; intros [= <-]; reflexivity |].
    destruct (decide (k = "jti")) as [-> | ?];
      [lookup_claims; intros [= <-]; reflexivity |].
    lookup_claims. intros Hl. exact (Hdata k v Hl).
Qed.

(** X8: where the expiry it computes exists, [create_access_token] raises
    [AttributeError] when the caller's role is not a string, and with a
    usable signing configuration, a role that is a string or absent and
    JSON values it returns a token; it never raises an [HTTPException]
    or a [JWTError]. *)
Theorem create_access_token_outcome
    {hashlib_impl : Hashlib} {pwd_context : CryptContext} {jose_impl : Jose}
    (settings : Settings) (data : payload) (expires_delta : option Z)
    (now : Z) (jti : string) :
  (expiry_representable settings expires_delta now ->
   forall v, data !! "role" = Some v -> (forall r, v <> VStr r) ->
     create_access_token settings data expires_delta now jti = RaisePy "AttributeError") /\
  (forall e, create_access_token settings data expires_delta now jti <> RaiseHTTP e) /\
  (forall msg, create_access_token settings data expires_delta now jti <> RaiseJWT msg) /\
  (expiry_representable settings expires_delta now ->
   signing_configured settings ->
   (forall v, data !! "role" = Some v -> exists r, v = VStr r) ->
   map_Forall (fun _ v => json_serializable v = true) data ->
   exists t, create_access_token settings data expires_delta now jti = Return t).
Proof.
  split; [| split; [| split]].
  - rewrite create_access_token_unfold. cbv zeta.
    intros _ v -> Hv. destruct v as [| r | | |]; try reflexivity.
    exfalso. apply (Hv r). reflexivity.
  - rewrite create_access_token_unfold. cbv zeta.
    intros e. unfold jwt_encode. repeat case_match; discriminate.
  - rewrite create_access_token_unfold. cbv zeta.
    intros msg. unfold jwt_encode. repeat case_match; discriminate.
  - intros _. apply create_access_token_returns.
Qed.

(** ** Verifying what was minted *)

Section verify_minted.
Context {hashlib_impl : Hashlib} {pwd_context : CryptContext} {jose_impl : Jose}.
Variable settings : Settings.

(** Decoding a validly signed token whose registered claims are the ones
    [create_access_token] writes: only the time window is left to
    decide. *)
Lemma decode_by_claims t now iat nbf exp sub jti :
  validly_signed settings t ->
  claims t !! "iat" = Some (VInt iat) -> claims t !! "nbf" = Some (VInt nbf) ->
  claims t !! "exp" = Some (VInt exp) ->
  claims t !! "aud" = Some (VStr "teste-tivit-client") ->
  claims t !! "iss" = Some (VStr "teste-tivit-api") ->
  claims t !! "sub" = Some (VStr sub) -> claims t !! "jti" = Some (VStr jti) ->
  claims t !! "at_hash" = None ->
  decode settings t now =
  if Z.ltb (timegm now) nbf then RaiseJWT "The token is not yet valid (nbf)"
  else if Z.ltb exp (timegm now) then RaiseJWT "Signature has expired."
  else Return (claims t).
Proof.
  intros Hs Hiat Hnbf Hexp Haud Hiss Hsub Hjti Hat.
  unfold decode, jwt_decode. unfold validly_signed in Hs. rewrite Hs. cbn [bind].
  unfold _validate_claims, _validate_iat, _validate_nbf, _validate_exp,
    _validate_aud, _validate_iss, _validate_sub, _validate_jti, _validate_at_hash,
    dict_get.
  rewrite Hiat, Hnbf, Hexp, Haud, Hiss, Hsub, Hjti, Hat.
  cbv [default from_option id]. cbn [int_claim bind].
  destruct (Z.ltb (timegm now) nbf); [reflexivity |].
  destruct (Z.ltb exp (timegm now)); reflexivity.
Qed.

(** The token minted from [data], decoded at [now']. *)
Lemma decode_created data expires_delta now jti t sub now' :
  create_access_token settings data expires_delta now jti = Return t ->
  data !! "sub" = Some (VStr sub) -> data !! "at_hash" = None ->
  now <= now' ->
  decode settings t now' =
  if Z.ltb (timegm (now + token_lifetime settings expires_delta)) (timegm now')
  then RaiseJWT "Signature has expired."
  else Return (claims t).
Proof.
  intros Hc Hsub Hat Hle.
  destruct (create_access_token_Return_inv settings data expires_delta now jti t Hc)
    as (_ & Hs & Hiss & Haud & Hjti & Hiat & Hnbf & Hexp & _ & _ & Hother).
  rewrite (decode_by_claims t now' (timegm now) (timegm now)
             (timegm (now + token_lifetime settings expires_delta)) sub jti);
    try assumption.
  - apply timegm_mono in Hle.
    destruct (Z.ltb_spec (timegm now') (timegm now)); [lia | reflexivity].
  - rewrite Hother; [assumption |].
    intros Hin. repeat (apply elem_of_cons in Hin as [Hin | Hin]; [discriminate |]).
    apply elem_of_nil in Hin. contradiction.
  - rewrite Hother; [assumption |].
    intros Hin. repeat (apply elem_of_cons in Hin as [Hin | Hin]; [discriminate |]).
    apply elem_of_nil in Hin. contradiction.
Qed.

(** The caller's [sub] and [role] are in the minted claims. *)
Lemma created_sub_role data expires_delta now jti t :
  create_access_token settings data expires_delta now jti = Return t ->
  claims t !! "sub" = data !! "sub" /\ claims t !! "role" = data !! "role".
Proof.
  intros Hc.
  destruct (create_access_token_Return_inv settings data expires_delta now jti t Hc)
    as (_ & _ & _ & _ & _ & _ & _ & _ & _ & _ & Hother).
  split; apply Hother; intros Hin;
    repeat (apply elem_of_cons in Hin as [Hin | Hin]; [discriminate |]);
    apply elem_of_nil in Hin; contradiction.
Qed.
End verify_minted.

(** A token minted for a user name and a role: it exists, carries both,
    and inside its lifetime [verify_token] is the checks on its
    claims. *)
Lemma token_data_created
    {hashlib_impl : Hashlib} {pwd_context : CryptContext} {jose_impl : Jose}
    (settings : Settings) (username role : string)
    (expires_delta : option Z) (now : Z) (jti : string) :
  signing_configured settings ->
  exists t,
    create_access_token settings (token_data username role) expires_delta now jti
      = Return t /\
    claims t !! "sub" = Some (VStr username) /\
    claims t !! "role" = Some (VStr role) /\
    claims t !! "role_hash" = Some (VStr (sha256_hexdigest role)) /\
    forall now', now <= now' ->
      decode settings t now' =
      if Z.ltb (timegm (now + token_lifetime settings expires_delta)) (timegm now')
      then RaiseJWT "Signature has expired."
      else Return (claims t).
Proof.
  intros Hconf.
  pose proof (create_access_token_returns settings (token_data username role)
                expires_delta now jti) as Hex.
  assert (Hstr : forall v, token_data username role !! "role" = Some v ->
                           exists r, v = VStr r).
  { intros v Hv. change (Some (VStr role) = Some v) in Hv. injection Hv as <-. eauto. }
  assert (Hser : map_Forall (fun _ v => json_serializable v = true)
                   (token_data username role)).
  { unfold token_data. repeat (apply map_Forall_insert_2; [reflexivity |]).
    apply map_Forall_empty. }
  destruct (Hex Hconf Hstr Hser) as [t Hc].
  exists t. split; [exact Hc |].
  destruct (create_access_token_Return_inv settings _ _ _ _ t Hc)
    as (_ & _ & _ & _ & _ & _ & _ & _ & Hrh & _ & _).
  destruct (created_sub_role settings _ _ _ _ t Hc) as [Hsub Hrl].
  repeat split; try assumption.
  - apply Hrh. reflexivity.
  - intros now' Hle.
    exact (decode_created settings _ _ _ _ t username now' Hc eq_refl eq_refl Hle).
Qed.

(** The checks on claims with a subject in the store, a valid role and
    its digest. *)
Lemma claims_checks_valid {hashlib_impl : Hashlib}
    (db : users_db) (p : payload) (username role : string) (user : db_user) :
  p !! "sub" = Some (VStr username) -> username <> "" ->
  p !! "role" = Some (VStr role) -> role = "user" \/ role = "admin" ->
  p !! "role_hash" = Some (VStr (sha256_hexdigest role)) ->
  db !! username = Some user -> is_active user = true ->
  claims_checks db p = Return p.
Proof.
  intros Hsub Hname Hrl Hrole Hrh Hdb Hact.
  unfold claims_checks, dict_get. rewrite Hsub, Hrl, Hrh.
  cbv [default from_option id].
  rewrite (truthy_VStr username) by assumption.
  rewrite (truthy_VStr role) by (apply valid_role_nonempty; assumption).
  rewrite (truthy_VStr (sha256_hexdigest role)) by apply sha256_hexdigest_nonempty.
  cbn [negb orb]. rewrite validate_role_digest by assumption.
  cbn [bind negb get_by_value]. rewrite Hdb, Hact. reflexivity.
Qed.

(** X9: a token minted for a user name and a valid role, with any
    [expires_delta] for which the expiry exists, verifies against a
    store where the user is active from the minting instant up to the
    second of its expiry and is refused as expired after it; the
    lifetime is [expires_delta], except that a zero [expires_delta]
    counts as none given and yields the configured lifetime; with a
    lifetime of minus one second or less the token is refused as expired
    from the start. *)
Theorem create_access_token_lifetime
    {hashlib_impl : Hashlib} {pwd_context : CryptContext} {jose_impl : Jose}
    (settings : Settings) (db : users_db) (username role : string)
    (expires_delta : option Z) (now : Z) (jti : string) (now' : Z) (user : db_user) :
  signing_configured settings ->
  expiry_representable settings expires_delta now ->
  role = "user" \/ role = "admin" ->
  username <> "" ->
  db !! username = Some user -> is_active user = true ->
  now <= now' ->
  create_access_token settings (token_data username role) (Some 0) now jti =
    create_access_token settings (token_data username role) None now jti /\
  exists t,
    create_access_token settings (token_data username role) expires_delta now jti
      = Return t /\
    (timegm now' <= timegm (now + token_lifetime settings expires_delta) ->
     verify_token settings db now' t = Return (claims t)) /\
    (timegm (now + token_lifetime settings expires_delta) < timegm now' ->
     verify_token settings db now' t = RaiseHTTP signature_has_expired) /\
    (token_lifetime settings expires_delta <= -1000000 ->
     verify_token settings db now' t = RaiseHTTP signature_has_expired).
Proof.
  intros Hconf _ Hrole Hname Hdb Hact Hle. split; [reflexivity |].
  destruct (token_data_created settings username role expires_delta now jti Hconf)
    as (t & Hc & Hsub & Hrl & Hrh & Hdec).
  exists t. split; [exact Hc |].
  pose proof (Hdec now' Hle) as Hd.
  assert (Hexpired : timegm (now + token_lifetime settings expires_delta) < timegm now' ->
                     verify_token settings db now' t = RaiseHTTP signature_has_expired).
  { intros Hlt.
    destruct (Z.ltb_spec (timegm (now + token_lifetime settings expires_delta))
                (timegm now')); [| lia].
    apply (verify_token_JWTError settings db now' t "Signature has expired." Hd). }
  split; [| split; [exact Hexpired |]].
  - intros Hin.
    destruct (Z.ltb_spec (timegm (now + token_lifetime settings expires_delta))
                (timegm now')); [lia |].
    rewrite (verify_token_decoded settings db now' t (claims t) Hd).
    apply (claims_checks_valid db (claims t) username role user); assumption.
  - intros Hneg. apply Hexpired.
    apply Z.lt_le_trans with (timegm now); [| apply timegm_mono; assumption].
    unfold timegm.
    assert (now + token_lifetime settings expires_delta <= now + (-1) * 1000000) by lia.
    apply Z.le_lt_trans with ((now + (-1) * 1000000) / 1000000).
    + apply Z.div_le_mono; lia.
    + rewrite Z.div_add by lia. lia.
Qed.


(** ** The route dependencies *)

Section dependencies_lemmas.
Context {hashlib_impl : Hashlib} {pwd_context : CryptContext} {jose_impl : Jose}.
Variable settings : Settings.

(** [get_current_user] on a token that verifies is the repository
    lookup of its subject. *)
Lemma get_current_user_verified db repo now t p :
  verify_token settings db now t = Return p ->
  exists u, p !! "sub" = Some (VStr u) /\ u <> "" /\
    get_current_user settings db repo now t =
    match repo !! u with
    | None => RaiseHTTP user_not_found
    | Some user =>
        if entities.is_active user then Return user
        else RaiseHTTP user_account_inactive
    end.
Proof.
  intros Hv. unfold get_current_user. rewrite Hv. cbn [bind].
  apply verify_token_Return in Hv as [_ Hc].
  apply claims_checks_Return_inv in Hc as (_ & u & _ & _ & Hsub & Hne & _).
  exists u. split; [assumption |]. split; [assumption |].
  unfold dict_get. rewrite Hsub. cbv [default from_option id].
  rewrite truthy_VStr by assumption. cbn [negb get_by_value bind].
  destruct (repo !! u) as [user |]; [| reflexivity].
  destruct (entities.is_active user); reflexivity.
Qed.

Lemma bind_RaiseHTTP_inv {A B} (m : outcome A) (k : A -> outcome B) e :
  bind m k = RaiseHTTP e -> m = RaiseHTTP e \/ exists a, k a = RaiseHTTP e.
Proof.
  destruct m as [a | e' | |]; cbn [bind]; intros Hb; try discriminate.
  - right. exists a. exact Hb.
  - left. injection Hb as ->. reflexivity.
Qed.

(** [jwt.decode] raises no [HTTPException]. *)
Lemma decode_not_HTTPException t now e : decode settings t now <> RaiseHTTP e.
Proof.
  unfold decode, jwt_decode, _validate_claims. intros Hd.
  repeat (apply bind_RaiseHTTP_inv in Hd as [Hd | [? Hd]]); try discriminate.
  - unfold jws_verify in Hd. repeat case_match; discriminate.
  - unfold _validate_iat, int_claim in Hd.
    repeat (case_match; cbn [bind] in Hd); discriminate.
  - unfold _validate_nbf, int_claim in Hd.
    repeat (case_match; cbn [bind] in Hd); discriminate.
  - unfold _validate_exp, int_claim in Hd.
    repeat (case_match; cbn [bind] in Hd); discriminate.
  - unfold _validate_aud in Hd. repeat case_match; discriminate.
  - unfold _validate_iss in Hd. repeat case_match; discriminate.
  - unfold _validate_sub in Hd. repeat case_match; discriminate.
  - unfold _validate_jti in Hd. repeat case_match; discriminate.
  - unfold _validate_at_hash in Hd. repeat case_match; discriminate.
Qed.

(** No message of [jwt.decode] is "missing username". *)
Lemma decode_message t now msg :
  decode settings t now = RaiseJWT msg -> msg <> "missing username".
Proof.
  unfold decode, jwt_decode. intros Hd.
  destruct (jws_verify t (secret_key settings) [algorithm settings])
    as [c | | m |] eqn:Hj; cbn [bind] in Hd; try discriminate.
  - unfold _validate_claims in Hd.
    assert (Hstep : forall (m : outcome unit) (k : outcome payload),
              (forall msg', m = RaiseJWT msg' -> msg' <> "missing username") ->
              bind m (fun _ => k) = RaiseJWT msg ->
              msg <> "missing username" \/ k = RaiseJWT msg).
    { intros m k Hm Hb. destruct m; cbn [bind] in Hb; try discriminate; [auto |].
      injection Hb as <-. left. apply Hm. reflexivity. }
    destruct (_validate_iat c) as [[] | | m |] eqn:H1; cbn [bind] in Hd;
      try discriminate.
    2:{ injection Hd as <-. unfold _validate_iat, int_claim in H1.
        repeat case_match; try discriminate; injection H1 as <-; discriminate. }
    destruct (_validate_nbf c now) as [[] | | m |] eqn:H2; cbn [bind] in Hd;
      try discriminate.
    2:{ injection Hd as <-. unfold _validate_nbf, int_claim in H2.
        repeat (case_match; cbn [bind] in H2); try discriminate;
          injection H2 as <-; discriminate. }
    destruct (_validate_exp c now) as [[] | | m |] eqn:H3; cbn [bind] in Hd;
      try discriminate.
    2:{ injection Hd as <-. unfold _validate_exp, int_claim in H3.
        repeat (case_match; cbn [bind] in H3); try discriminate;
          injection H3 as <-; discriminate. }
    destruct (_validate_aud c "teste-tivit-client") as [[] | | m |] eqn:H4;
      cbn [bind] in Hd; try discriminate.
    2:{ injection Hd as <-. unfold _validate_aud in H4.
        repeat case_match; try discriminate; injection H4 as <-; discriminate. }
    destruct (_validate_iss c "teste-tivit-api") as [[] | | m |] eqn:H5;
      cbn [bind] in Hd; try discriminate.
    2:{ injection Hd as <-. unfold _validate_iss in H5.
        repeat case_match; try discriminate; injection H5 as <-; discriminate. }
    destruct (_validate_sub c) as [[] | | m |] eqn:H6; cbn [bind] in Hd;
      try discriminate.
    2:{ injection Hd as <-. unfold _validate_sub in H6.
        repeat case_match; try discriminate; injection H6 as <-; discriminate. }
    destruct (_validate_jti c) as [[] | | m |] eqn:H7; cbn [bind] in Hd;
      try discriminate.
    2:{ injection Hd as <-. unfold _validate_jti in H7.
        repeat case_match; try discriminate; injection H7 as <-; discriminate. }
    destruct (_validate_at_hash c) as [[] | | m |] eqn:H8; cbn [bind] in Hd;
      try discriminate.
    injection Hd as <-. unfold _validate_at_hash in H8.
    repeat case_match; try discriminate; injection H8 as <-; discriminate.
  - injection Hd as <-. unfold jws_verify in Hj.
    repeat case_match; try discriminate; injection Hj as <-; discriminate.
Qed.

(** [verify_token] never raises "Invalid token: missing username". *)
Lemma verify_token_not_missing_username db now t :
  verify_token settings db now t <> RaiseHTTP missing_username.
Proof.
  unfold verify_token.
  destruct (decode settings t now) as [p | e | msg | ] eqn:Hd;
    cbn [bind except_JWTError]; try discriminate.
  2:{ exfalso. exact (decode_not_HTTPException t now e Hd). }
  - change (except_JWTError (claims_checks db p) <> RaiseHTTP missing_username).
    unfold claims_checks.
    destruct (negb (truthy (dict_get p "sub"))); [discriminate |].
    destruct (negb (truthy (dict_get p "role"))
              || negb (truthy (dict_get p "role_hash"))); [discriminate |].
    destruct (validate_role_outcome (dict_get p "role") (dict_get p "role_hash"))
      as [[b ->] | ->]; cbn [bind except_JWTError]; [| discriminate].
    destruct b; cbn [negb]; [| discriminate].
    unfold get_by_value.
    repeat (case_match; cbn [bind except_JWTError]); discriminate.
  - apply decode_message in Hd. unfold missing_username. intros Heq.
    injection Heq as Heq. apply Hd. exact Heq.
Qed.
End dependencies_lemmas.

(** X11: [get_current_user] returns a user exactly when the token
    verifies and the repository holds, under the token's subject, an
    active user, which is the user returned. *)
Theorem get_current_user_Return_iff
    {hashlib_impl : Hashlib} {pwd_context : CryptContext} {jose_impl : Jose}
    (settings : Settings) (db : users_db) (repo : user_repository) (now : Z)
    (t : token) (user : entities.User) :
  get_current_user settings db repo now t = Return user <->
  exists p u, verify_token settings db now t = Return p /\
              p !! "sub" = Some (VStr u) /\
              repo !! u = Some user /\ entities.is_active user = true.
Proof.
  split.
  - intros Hg.
    destruct (verify_token settings db now t) as [p | e | msg | cls] eqn:Hv;
      try (unfold get_current_user in Hg; rewrite Hv in Hg; discriminate).
    destruct (get_current_user_verified settings db repo now t p Hv)
      as (u & Hsub & _ & Heq).
    rewrite Heq in Hg. exists p, u.
    destruct (repo !! u) as [user' |]; [| discriminate].
    destruct (entities.is_active user') eqn:Hact; [| discriminate].
    injection Hg as <-. auto.
  - intros (p & u & Hv & Hsub & Hrepo & Hact).
    destruct (get_current_user_verified settings db repo now t p Hv)
      as (u' & Hsub' & _ & Heq).
    rewrite Hsub in Hsub'. injection Hsub' as <-.
    rewrite Heq, Hrepo, Hact. reflexivity.
Qed.

(** X12: the failures of [get_current_user]: it never raises "Invalid
    token: missing username", because [verify_token] has refused a
    token without subject before; on a token that verifies it raises
    "User not found" when the repository has no entry for the subject
    and "User account is inactive" when the entry is inactive, even
    though the security module's own store holds the user as active. *)
Theorem get_current_user_failures
    {hashlib_impl : Hashlib} {pwd_context : CryptContext} {jose_impl : Jose}
    (settings : Settings) (db : users_db) (repo : user_repository) (now : Z)
    (t : token) :
  get_current_user settings db repo now t <> RaiseHTTP missing_username /\
  (forall p u, verify_token settings db now t = Return p ->
     p !! "sub" = Some (VStr u) ->
     (repo !! u = None ->
      get_current_user settings db repo now t = RaiseHTTP user_not_found) /\
     (forall user, repo !! u = Some user -> entities.is_active user = false ->
      get_current_user settings db repo now t = RaiseHTTP user_account_inactive)).
Proof.
  split.
  - destruct (verify_token settings db now t) as [p | e | msg | cls] eqn:Hv.
    + destruct (get_current_user_verified settings db repo now t p Hv)
        as (u & _ & _ & ->).
      destruct (repo !! u) as [user |]; [| discriminate].
      destruct (entities.is_active user); discriminate.
    + unfold get_current_user. rewrite Hv. cbn [bind]. intros Heq.
      injection Heq as ->.
      exact (verify_token_not_missing_username settings db now t Hv).
    + unfold get_current_user. rewrite Hv. discriminate.
    + unfold get_current_user. rewrite Hv. discriminate.
  - intros p u Hv Hsub.
    destruct (get_current_user_verified settings db repo now t p Hv)
      as (u' & Hsub' & _ & ->).
    rewrite Hsub in Hsub'. injection Hsub' as <-. split.
    + intros ->. reflexivity.
    + intros user -> ->. reflexivity.
Qed.

Lemma get_current_user_active
    {hashlib_impl : Hashlib} {pwd_context : CryptContext} {jose_impl : Jose}
    (settings : Settings) (db : users_db) (repo : user_repository) (now : Z)
    (t : token) (user : entities.User) :
  get_current_user settings db repo now t = Return user ->
  entities.is_active user = true.
Proof.
  intros Hg.
  destruct (verify_token settings db now t) as [p | e | msg | cls] eqn:Hv;
    try (unfold get_current_user in Hg; rewrite Hv in Hg; discriminate).
  destruct (get_current_user_verified settings db repo now t p Hv)
    as (u & _ & _ & Heq).
  rewrite Heq in Hg.
  destruct (repo !! u) as [user' |]; [| discriminate].
  destruct (entities.is_active user') eqn:Hact; [| discriminate].
  injection Hg as <-. exact Hact.
Qed.

(** X13: [require_user_role] and [require_active_user], fed with the
    user [get_current_user] returned, never raise their 403: composed
    with [get_current_user] each is [get_current_user] itself. *)
Theorem require_user_role_get_current_user
    {hashlib_impl : Hashlib} {pwd_context : CryptContext} {jose_impl : Jose}
    (settings : Settings) (db : users_db) (repo : user_repository) (now : Z)
    (t : token) :
  bind (get_current_user settings db repo now t) require_user_role
    = get_current_user settings db repo now t /\
  bind (get_current_user settings db repo now t) require_active_user
    = get_current_user settings db repo now t.
Proof.
  destruct (get_current_user settings db repo now t) as [user | | |] eqn:Hg;
    cbn [bind]; try (split; reflexivity).
  apply get_current_user_active in Hg.
  unfold require_user_role, require_active_user, entities.can_access_user_resources,
    entities.is_user, entities.is_admin.
  rewrite Hg. destruct (entities.role user); split; reflexivity.
Qed.

(** X14: [require_admin_role] after [get_current_user] decides by the
    role the repository stores, not by the role claim of the token: it
    returns the user when that role is [ADMIN] and raises its 403
    otherwise; so a token minted with the role claim ["admin"] for a
    user the repository holds as [USER] verifies, and is refused by
    [require_admin_role]. *)
Theorem require_admin_role_get_current_user
    {hashlib_impl : Hashlib} {pwd_context : CryptContext} {jose_impl : Jose}
    (settings : Settings) (db : users_db) (repo : user_repository) (now : Z) :
  (forall t user,
     get_current_user settings db repo now t = Return user ->
     bind (get_current_user settings db repo now t) require_admin_role =
     match entities.role user with
     | entities.ADMIN => Return user
     | entities.USER => RaiseHTTP admin_role_required
     end) /\
  (forall username stored user jti now',
     signing_configured settings -> username <> "" ->
     db !! username = Some stored -> is_active stored = true ->
     repo !! username = Some user -> entities.is_active user = true ->
     entities.role user = entities.USER ->
     now' <= now ->
     timegm now <= timegm (now' + token_lifetime settings None) ->
     exists t,
       create_access_token settings (token_data username "admin") None now' jti
         = Return t /\
       verify_token settings db now t = Return (claims t) /\
       claims t !! "role" = Some (VStr "admin") /\
       bind (get_current_user settings db repo now t) require_admin_role
         = RaiseHTTP admin_role_required).
Proof.
  split.
  - intros t user Hg. rewrite Hg. cbn [bind].
    apply get_current_user_active in Hg.
    unfold require_admin_role, entities.can_access_admin_resources, entities.is_admin.
    rewrite Hg. destruct (entities.role user); reflexivity.
  - intros username stored user jti now' Hconf Hname Hdb Hact Hrepo Huact Hrole Hle Hin.
    destruct (token_data_created settings username "admin" None now' jti Hconf)
      as (t & Hc & Hsub & Hrl & Hrh & Hdec).
    exists t. split; [exact Hc |].
    pose proof (Hdec now Hle) as Hd.
    destruct (Z.ltb_spec (timegm (now' + token_lifetime settings None)) (timegm now));
      [lia |].
    assert (Hv : verify_token settings db now t = Return (claims t)).
    { rewrite (verify_token_decoded settings db now t (claims t) Hd).
      apply (claims_checks_valid db (claims t) username "admin" stored); auto. }
    split; [exact Hv |]. split; [exact Hrl |].
    destruct (get_current_user_verified settings db repo now t (claims t) Hv)
      as (u & Hsub' & _ & ->).
    rewrite Hsub in Hsub'. injection Hsub' as <-.
    rewrite Hrepo, Huact. cbn [bind].
    unfold require_admin_role, entities.can_access_admin_resources, entities.is_admin.
    rewrite Huact, Hrole. reflexivity.
Qed.

(** ** Logging in, then calling a protected route *)

(** X15: what a successful [authenticate] guarantees, and that its token
    opens the protected routes: when the repository holds an active user
    under its own name with a non-empty hash that verifies, and the
    store of the security module holds that name as active,
    [authenticate] returns a bearer token minted from the user's name
    and role, and [get_current_user] on that token, up to its expiry,
    returns that same user, whom [require_user_role] lets through. *)
Theorem authenticate_then_get_current_user
    {hashlib_impl : Hashlib} {pwd_context : CryptContext} {jose_impl : Jose}
    (settings : Settings) (db : users_db) (repo : user_repository)
    (username password : string) (now : Z) (jti : string) (now' : Z)
    (entity : entities.User) (hashed : string) (stored : db_user) :
  signing_configured settings ->
  repo !! username = Some entity -> entities.username entity = username ->
  username <> "" ->
  entities.is_active entity = true ->
  entities.password_hash entity = Some hashed -> hashed <> "" ->
  verify_password password hashed = Return true ->
  db !! username = Some stored -> is_active stored = true ->
  now <= now' -> timegm now' <= timegm (now + token_lifetime settings None) ->
  exists res,
    authenticate settings repo username password now jti = Return (Some res) /\
    token_type res = "bearer" /\
    id_username (user res) = username /\
    id_role (user res) = entities.UserRole_value (entities.role entity) /\
    get_current_user settings db repo now' (access_token res) = Return entity /\
    bind (get_current_user settings db repo now' (access_token res)) require_user_role
      = Return entity.
Proof.
  intros Hconf Hrepo Hkey Hname Huact Hhash Hne Hpw Hdb Hact Hle Hin.
  set (role := entities.UserRole_value (entities.role entity)).
  destruct (token_data_created settings username role None now jti Hconf)
    as (t & Hc & Hsub & Hrl & Hrh & Hdec).
  exists (mkAuthResult t "bearer" (mkIdentity username role true)).
  assert (Hauth : authenticate settings repo username password now jti =
                  Return (Some (mkAuthResult t "bearer" (mkIdentity username role true)))).
  { rewrite (authenticate_verified settings repo username password now jti
               entity hashed) by assumption.
    rewrite Hpw. cbn [bind negb]. rewrite Hkey. fold role. rewrite Hc. reflexivity. }
  split; [exact Hauth |]. cbn [token_type user id_username id_role access_token].
  repeat (split; [reflexivity |]).
  pose proof (Hdec now' Hle) as Hd.
  destruct (Z.ltb_spec (timegm (now + token_lifetime settings None)) (timegm now'));
    [lia |].
  assert (Hvalid : role = "user" \/ role = "admin").
  { unfold role. destruct (entities.role entity); auto. }
  assert (Hv : verify_token settings db now' t = Return (claims t)).
  { rewrite (verify_token_decoded settings db now' t (claims t) Hd).
    apply (claims_checks_valid db (claims t) username role stored); auto. }
  destruct (get_current_user_verified settings db repo now' t (claims t) Hv)
    as (u & Hsub' & _ & Hg).
  rewrite Hsub in Hsub'. injection Hsub' as <-.
  rewrite Hrepo, Huact in Hg. rewrite Hg. split; [reflexivity |]. cbn [bind].
  unfold require_user_role, entities.can_access_user_resources, entities.is_user,
    entities.is_admin.
  rewrite Huact. destruct (entities.role entity); reflexivity.
Qed.

(** ** Roles and access *)

(** X16: [validate_user_access] grants exactly the active users whose
    role covers the required one: any active user for [USER], active
    administrators only for [ADMIN]; hence access to [ADMIN] resources
    implies access to [USER] resources, and an inactive user has
    neither. *)
Theorem validate_user_access_iff (user : entities.User)
    (required_role : entities.UserRole) :
  (validate_user_access user required_role = true <->
   entities.is_active user = true /\
   (required_role = entities.ADMIN -> entities.role user = entities.ADMIN)) /\
  (validate_user_access user entities.ADMIN = true ->
   validate_user_access user entities.USER = true) /\
  (entities.can_access_admin_resources user = true ->
   entities.can_access_user_resources user = true).
Proof.
  unfold validate_user_access, entities.can_access_admin_resources,
    entities.can_access_user_resources, entities.is_admin, entities.is_user.
  destruct user as [name role active hash]. cbn.
  destruct active, role, required_role; cbn; repeat split;
    try discriminate; try tauto; try (intros [_ H]; discriminate (H eq_refl)).
Qed.

(** ** The in-memory repository *)

(** X17: [create] stores a user under its own name when the name is
    free, leaving every other entry as it was, and then
    [get_by_username] returns that user; when the name is taken it
    raises [ValueError] and leaves the repository, the existing entry
    included, unchanged. *)
Theorem create_spec (users : user_repository) (user : entities.User) :
  (users !! entities.username user = None ->
   snd (fake_user_repository.create users user) = Return user /\
   get_by_username (fst (fake_user_repository.create users user))
     (entities.username user) = Some user /\
   forall k, k <> entities.username user ->
     get_by_username (fst (fake_user_repository.create users user)) k
       = get_by_username users k) /\
  (forall existing, users !! entities.username user = Some existing ->
   fake_user_repository.create users user = (users, RaisePy "ValueError")).
Proof.
  unfold fake_user_repository.create, fake_user_repository.exists_, get_by_username.
  split.
  - intros Hfree. rewrite bool_decide_eq_false_2
      by (rewrite Hfree; intros [? ?]; discriminate).
    cbn [fst snd]. repeat split.
    + apply lookup_insert_eq.
    + intros k Hk. apply lookup_insert_ne. congruence.
  - intros existing Hex. rewrite bool_decide_eq_true_2 by (rewrite Hex; eauto).
    reflexivity.
Qed.

(** X18: [update] is the mirror image of [create]: on a name that is
    taken it replaces the entry and changes no other, keeping the set of
    names; on a name that is free it raises [ValueError] and changes
    nothing; so of [create] and [update] on the same user exactly one
    returns, and when it does the two store the same dictionary. *)
Theorem update_spec (users : user_repository) (user : entities.User) :
  (forall existing, users !! entities.username user = Some existing ->
   snd (fake_user_repository.update users user) = Return user /\
   get_by_username (fst (fake_user_repository.update users user))
     (entities.username user) = Some user /\
   dom (fst (fake_user_repository.update users user)) = dom users /\
   forall k, k <> entities.username user ->
     get_by_username (fst (fake_user_repository.update users user)) k
       = get_by_username users k) /\
  (users !! entities.username user = None ->
   fake_user_repository.update users user = (users, RaisePy "ValueError")) /\
  (snd (fake_user_repository.create users user) = Return user <->
   snd (fake_user_repository.update users user) = RaisePy "ValueError").
Proof.
  unfold fake_user_repository.update, fake_user_repository.create,
    fake_user_repository.exists_, get_by_username.
  split; [| split; [| split]].
  - intros existing Hex. rewrite bool_decide_eq_true_2 by eauto. cbn [negb fst snd].
    split; [reflexivity |]. split; [apply lookup_insert_eq |]. split.
    + rewrite dom_insert_L. apply (elem_of_dom_2 (D := gset string)) in Hex.
      apply subseteq_union_1_L, singleton_subseteq_l. exact Hex.
    + intros k Hk. apply lookup_insert_ne. congruence.
  - intros Hfree. rewrite bool_decide_eq_false_2
      by (rewrite Hfree; intros [? ?]; discriminate).
    reflexivity.
  - case_bool_decide; cbn; [discriminate | reflexivity].
  - case_bool_decide; cbn; [discriminate | reflexivity].
Qed.

(** X19: [delete] returns [True] exactly when the name was there, and
    afterwards the name is not there and every other entry is as
    before; deleting what [create] has just stored gives the repository
    back, and a second [delete] returns [False] and changes nothing. *)
Theorem delete_spec (users : user_repository) (username : string) :
  (snd (fake_user_repository.delete users username) = true <->
   is_Some (get_by_username users username)) /\
  fake_user_repository.exists_ (fst (fake_user_repository.delete users username))
    username = false /\
  (forall k, k <> username ->
     get_by_username (fst (fake_user_repository.delete users username)) k
       = get_by_username users k) /\
  fake_user_repository.delete (fst (fake_user_repository.delete users username)) username
    = (fst (fake_user_repository.delete users username), false) /\
  (forall user, entities.username user = username -> users !! username = None ->
     fake_user_repository.delete (fst (fake_user_repository.create users user)) username
       = (users, true)).
Proof.
  unfold fake_user_repository.delete, fake_user_repository.create,
    fake_user_repository.exists_, get_by_username.
  assert (Hgone : forall m : user_repository,
            fst (if bool_decide (is_Some (m !! username))
                 then (base.delete username m, true) else (m, false)) !! username = None).
  { intros m. case_bool_decide as Hm; cbn [fst]; [apply lookup_delete_eq |].
    destruct (m !! username) eqn:Hl; [exfalso; apply Hm; eauto | reflexivity]. }
  repeat split.
  - case_bool_decide; cbn [snd]; [auto | discriminate].
  - intros Hs. rewrite bool_decide_eq_true_2 by assumption. reflexivity.
  - apply bool_decide_eq_false_2. rewrite Hgone. intros [? ?]. discriminate.
  - intros k Hk. case_bool_decide; cbn [fst]; [| reflexivity].
    apply lookup_delete_ne. congruence.
  - rewrite (bool_decide_eq_false_2 (is_Some (fst _ !! username)))
      by (rewrite Hgone; intros [? ?]; discriminate).
    reflexivity.
  - intros user Hname Hfree. rewrite Hname.
    rewrite (bool_decide_eq_false_2 (is_Some (users !! username)))
      by (rewrite Hfree; intros [? ?]; discriminate).
    cbn [fst]. rewrite bool_decide_eq_true_2 by (rewrite lookup_insert_eq; eauto).
    rewrite delete_insert_id by assumption. reflexivity.
Qed.

(** X20: the repository keeps every user stored under its own name: the
    initial repository has the property, and [create], [update] and
    [delete] preserve it. *)
Theorem keyed_by_username_invariant {pwd_context : CryptContext}
    (users : user_repository) (user : entities.User) (username : string) :
  fake_user_repository.keyed_by_username FakeUserRepository /\
  (fake_user_repository.keyed_by_username users ->
   fake_user_repository.keyed_by_username (fst (fake_user_repository.create users user)) /\
   fake_user_repository.keyed_by_username (fst (fake_user_repository.update users user)) /\
   fake_user_repository.keyed_by_username
     (fst (fake_user_repository.delete users username))).
Proof.
  unfold fake_user_repository.keyed_by_username. split.
  - unfold FakeUserRepository. intros k u Hl.
    apply lookup_insert_Some in Hl as [[<- <-] | [_ Hl]]; [reflexivity |].
    apply lookup_insert_Some in Hl as [[<- <-] | [_ Hl]]; [reflexivity |].
    rewrite lookup_empty in Hl. discriminate.
  - intros Hinv.
    assert (Hins : forall k u, <[entities.username user := user]> users !! k = Some u ->
                               entities.username u = k).
    { intros k u Hl. apply lookup_insert_Some in Hl as [[<- <-] | [_ Hl]];
        [reflexivity | eauto]. }
    unfold fake_user_repository.create, fake_user_repository.update,
      fake_user_repository.delete.
    repeat split; intros k u; repeat case_match; cbn [fst]; eauto.
    intros Hl. apply lookup_delete_Some in Hl as [_ Hl]. eauto.
Qed.

(** ** The stored response *)

(** X21: [get_error_type] sorts every status code into one class:
    ["none"] for 200 to 299, ["client_error"] for 400 to 499,
    ["server_error"] from 500 on, and ["unknown"] for everything below
    200 and for 300 to 399; the three predicates never hold together. *)
Theorem get_error_type_spec {J : Type} (self : external_data.ExternalApiData J) :
  let sc := external_data.status_code self in
  (external_data.get_error_type self = "none" <-> 200 <= sc < 300) /\
  (external_data.get_error_type self = "client_error" <-> 400 <= sc < 500) /\
  (external_data.get_error_type self = "server_error" <-> 500 <= sc) /\
  (external_data.get_error_type self = "unknown" <-> sc < 200 \/ 300 <= sc < 400) /\
  (external_data.is_successful self && external_data.is_client_error self = false) /\
  (external_data.is_successful self && external_data.is_server_error self = false) /\
  (external_data.is_client_error self && external_data.is_server_error self = false).
Proof.
  unfold external_data.get_error_type, external_data.is_successful,
    external_data.is_client_error, external_data.is_server_error.
  cbv zeta. generalize (external_data.status_code self). intros sc.
  destruct (Z.leb_spec 200 sc), (Z.ltb_spec sc 300), (Z.leb_spec 400 sc),
    (Z.ltb_spec sc 500), (Z.leb_spec 500 sc); cbn [andb];
    repeat split; try discriminate; try lia; try reflexivity; intros; try lia.
Qed.

(** ** The use case *)

(** X22: [authenticate] returns a result only for a repository user that
    is active and whose stored hash is non-empty and verifies the
    password; the result is a bearer token minted from the user's name
    and role with the default lifetime, beside the user's name, role and
    active flag; with a usable signing configuration, it returns [None]
    exactly when the user is absent, inactive, without a hash, or the
    verification returns [False]; and when the verification raises, on
    an active user with a hash, the use case raises the same. *)
Theorem authenticate_spec
    {hashlib_impl : Hashlib} {pwd_context : CryptContext} {jose_impl : Jose}
    (settings : Settings) (repo : user_repository) (username password : string)
    (now : Z) (jti : string) :
  (forall res,
     authenticate settings repo username password now jti = Return (Some res) ->
     exists entity hashed,
       repo !! username = Some entity /\ entities.is_active entity = true /\
       entities.password_hash entity = Some hashed /\ hashed <> "" /\
       verify_password password hashed = Return true /\
       token_type res = "bearer" /\
       user res = mkIdentity (entities.username entity)
                    (entities.UserRole_value (entities.role entity)) true /\
       create_access_token settings
         (token_data (entities.username entity)
            (entities.UserRole_value (entities.role entity))) None now jti
       = Return (access_token res)) /\
  (signing_configured settings ->
   (authenticate settings repo username password now jti = Return None <->
    repo !! username = None \/
    exists entity, repo !! username = Some entity /\
      (entities.is_active entity = false \/
       entities.password_hash entity = None \/
       entities.password_hash entity = Some "" \/
       exists hashed, entities.password_hash entity = Some hashed /\
                      verify_password password hashed = Return false))) /\
  (forall entity hashed cls,
     repo !! username = Some entity -> entities.is_active entity = true ->
     entities.password_hash entity = Some hashed -> hashed <> "" ->
     verify_password password hashed = RaisePy cls ->
     authenticate settings repo username password now jti = RaisePy cls).
Proof.
  split; [| split].
  - unfold authenticate, get_by_username.
    intros res Ha. destruct (repo !! username) as [entity |]; [| discriminate].
    destruct (entities.is_active entity) eqn:Hact; cbn [negb] in Ha; [| discriminate].
    destruct (entities.password_hash entity) as [hashed |] eqn:Hhash; [| discriminate].
    destruct (String.eqb_spec hashed "") as [Heq | Hne]; [discriminate |].
    destruct (verify_password password hashed) as [verified | | |] eqn:Hpw;
      cbn [bind] in Ha; try discriminate.
    destruct verified; cbn [negb] in Ha; [| discriminate].
    apply bind_Return_inv in Ha as (t & Hc & Ha). injection Ha as <-.
    exists entity, hashed. rewrite Hact. cbn. auto 10.
  - unfold authenticate, get_by_username. intros Hconf. split.
    + intros Ha. destruct (repo !! username) as [entity |]; [| auto].
      right. exists entity. split; [reflexivity |].
      destruct (entities.is_active entity); cbn [negb] in Ha; [| auto].
      destruct (entities.password_hash entity) as [hashed |]; [| auto].
      destruct (String.eqb_spec hashed "") as [Heq | Hne]; [subst hashed; auto |].
      destruct (verify_password password hashed) as [verified | | |] eqn:Hpw;
        cbn [bind] in Ha; try discriminate.
      destruct verified; cbn [negb] in Ha; [| eauto 10].
      rewrite create_access_token_token_data in Ha by assumption. discriminate.
    + intros [-> | (entity & -> & Hcase)]; [reflexivity |].
      destruct (entities.is_active entity); cbn [negb]; [| reflexivity].
      destruct Hcase as [Hc | [-> | [-> | (hashed & -> & Hpw)]]];
        [discriminate | reflexivity | reflexivity |].
      destruct (String.eqb hashed ""); [reflexivity |].
      rewrite Hpw. reflexivity.
  - intros entity hashed cls Hrepo Hact Hhash Hne Hpw.
    rewrite (authenticate_verified settings repo username password now jti
               entity hashed) by assumption.
    rewrite Hpw. reflexivity.
Qed.

(** ** The properties above, run on concrete inputs *)

Lemma get_user_from_token_verified_witness :
  exists u user,
    claims usuario_token !! "sub" = Some (VStr u) /\ toy_users_db !! u = Some user /\
    is_active user = true /\
    get_user_from_token toy_users_db (claims usuario_token) =
      Return (mkIdentity (user_get_username user) (role user) true).
Proof.
  apply (get_user_from_token_verified (hashlib_impl := Toy.hashlib)
           (pwd_context := Toy.crypt_context) (jose_impl := Toy.jose)
           default_settings toy_users_db 1700000001000000 usuario_token).
  vm_compute. reflexivity.
Defined.

Lemma verify_token_Return_inv_witness :
  claims audience_list_token = claims audience_list_token /\
  toy_validly_signed default_settings audience_list_token /\
  (exists u r user,
     claims audience_list_token !! "sub" = Some (VStr u) /\ u <> "" /\
     claims audience_list_token !! "role" = Some (VStr r) /\
     (r = "user" \/ r = "admin") /\
     claims audience_list_token !! "role_hash" = Some (VStr (Toy.hexdigest r)) /\
     toy_users_db !! u = Some user /\ is_active user = true) /\
  claims audience_list_token !! "iss" = Some (VStr "teste-tivit-api") /\
  (claims audience_list_token !! "aud" = None \/
   claims audience_list_token !! "aud" = Some (VStr "teste-tivit-client") \/
   exists l, claims audience_list_token !! "aud" = Some (VList l) /\
             VStr "teste-tivit-client" ∈ l /\
             forall v, v ∈ l -> exists a, v = VStr a).
Proof.
  apply (verify_token_Return_inv (hashlib_impl := Toy.hashlib)
           (pwd_context := Toy.crypt_context) (jose_impl := Toy.jose)
           default_settings toy_users_db 1700000001000000 audience_list_token).
  vm_compute. reflexivity.
Defined.

Lemma create_access_token_Return_witness :
  header_alg usuario_token = algorithm default_settings /\
  toy_validly_signed default_settings usuario_token /\
  claims usuario_token !! "iss" = Some (VStr "teste-tivit-api") /\
  claims usuario_token !! "aud" = Some (VStr "teste-tivit-client") /\
  claims usuario_token !! "jti" = Some (VStr "jti-0") /\
  claims usuario_token !! "iat" = Some (VInt (timegm 1700000000000000)) /\
  claims usuario_token !! "nbf" = Some (VInt (timegm 1700000000000000)) /\
  claims usuario_token !! "exp" =
    Some (VInt (timegm (1700000000000000 + token_lifetime default_settings None))) /\
  (forall r, token_data "usuario" "user" !! "role" = Some (VStr r) ->
     claims usuario_token !! "role_hash" = Some (VStr (Toy.hexdigest r))) /\
  (token_data "usuario" "user" !! "role" = None ->
   claims usuario_token !! "role_hash" = token_data "usuario" "user" !! "role_hash") /\
  (forall k, k ∉ ["exp"; "iat"; "nbf"; "jti"; "iss"; "aud"; "role_hash"] ->
     claims usuario_token !! k = token_data "usuario" "user" !! k).
Proof.
  apply (create_access_token_Return (hashlib_impl := Toy.hashlib)
           (pwd_context := Toy.crypt_context) (jose_impl := Toy.jose)
           default_settings (token_data "usuario" "user") None 1700000000000000 "jti-0"
           usuario_token).
  vm_compute. reflexivity.
Defined.

Lemma create_access_token_outcome_witness :
  toy_create_access_token default_settings (<["role" := VInt 7]> ∅) None
    1700000000000000 "jti-0" = RaisePy "AttributeError" /\
  exists t, toy_create_access_token default_settings (token_data "usuario" "user")
              (Some 60000000) 1700000000000000 "jti-0" = Return t.
Proof.
  split.
  - apply (proj1 (create_access_token_outcome (hashlib_impl := Toy.hashlib)
             (pwd_context := Toy.crypt_context) (jose_impl := Toy.jose)
             default_settings (<["role" := VInt 7]> ∅) None 1700000000000000 "jti-0"))
      with (v := VInt 7).
    + vm_compute. repeat split; discriminate.
    + reflexivity.
    + discriminate.
  - apply (proj2 (proj2 (proj2 (create_access_token_outcome (hashlib_impl := Toy.hashlib)
             (pwd_context := Toy.crypt_context) (jose_impl := Toy.jose)
             default_settings (token_data "usuario" "user") (Some 60000000)
             1700000000000000 "jti-0")))).
    + vm_compute. repeat split; discriminate.
    + reflexivity.
    + intros v Hv. vm_compute in Hv. injection Hv as <-. eauto.
    + unfold token_data. repeat (apply map_Forall_insert_2; [reflexivity |]).
      apply map_Forall_empty.
Defined.

Lemma create_access_token_lifetime_witness :
  (exists t,
     toy_create_access_token default_settings (token_data "usuario" "user")
       (Some 60000000) 1700000000000000 "jti-0" = Return t /\
     toy_verify_token default_settings toy_users_db 1700000060999999 t
       = Return (claims t)) /\
  (exists t,
     toy_create_access_token default_settings (token_data "usuario" "user")
       (Some 60000000) 1700000000000000 "jti-0" = Return t /\
     toy_verify_token default_settings toy_users_db 1700000061000000 t
       = RaiseHTTP signature_has_expired) /\
  (exists t,
     toy_create_access_token default_settings (token_data "usuario" "user")
       (Some (-1000000)) 1700000000000000 "jti-0" = Return t /\
     toy_verify_token default_settings toy_users_db 1700000000000000 t
       = RaiseHTTP signature_has_expired).
Proof.
  split; [| split].
  - destruct (create_access_token_lifetime (hashlib_impl := Toy.hashlib)
                (pwd_context := Toy.crypt_context) (jose_impl := Toy.jose)
                default_settings toy_users_db "usuario" "user" (Some 60000000)
                1700000000000000 "jti-0" 1700000060999999
                (mkDbUser "usuario" "user" (Toy.bcrypt "L0XuwPOdS5U") true
                   (Toy.hexdigest "user")))
      as (_ & t & Hc & Hin & _).
    + reflexivity.
    + vm_compute. repeat split; discriminate.
    + left. reflexivity.
    + discriminate.
    + reflexivity.
    + reflexivity.
    + vm_compute. discriminate.
    + exists t. split; [exact Hc |]. apply Hin. vm_compute. discriminate.
  - destruct (create_access_token_lifetime (hashlib_impl := Toy.hashlib)
                (pwd_context := Toy.crypt_context) (jose_impl := Toy.jose)
                default_settings toy_users_db "usuario" "user" (Some 60000000)
                1700000000000000 "jti-0" 1700000061000000
                (mkDbUser "usuario" "user" (Toy.bcrypt "L0XuwPOdS5U") true
                   (Toy.hexdigest "user")))
      as (_ & t & Hc & _ & Hout & _).
    + reflexivity.
    + vm_compute. repeat split; discriminate.
    + left. reflexivity.
    + discriminate.
    + reflexivity.
    + reflexivity.
    + vm_compute. discriminate.
    + exists t. split; [exact Hc |]. apply Hout. vm_compute. reflexivity.
  - destruct (create_access_token_lifetime (hashlib_impl := Toy.hashlib)
                (pwd_context := Toy.crypt_context) (jose_impl := Toy.jose)
                default_settings toy_users_db "usuario" "user" (Some (-1000000))
                1700000000000000 "jti-0" 1700000000000000
                (mkDbUser "usuario" "user" (Toy.bcrypt "L0XuwPOdS5U") true
                   (Toy.hexdigest "user")))
      as (_ & t & Hc & _ & _ & Hneg).
    + reflexivity.
    + vm_compute. repeat split; discriminate.
    + left. reflexivity.
    + discriminate.
    + reflexivity.
    + reflexivity.
    + vm_compute. discriminate.
    + exists t. split; [exact Hc |]. apply Hneg. vm_compute. discriminate.
Defined.


Lemma get_current_user_failures_witness :
  toy_get_current_user default_settings toy_users_db (∅ : user_repository)
    1700000001000000 usuario_token = RaiseHTTP user_not_found /\
  toy_get_current_user default_settings toy_users_db
    (<["usuario" := entities.mkUser "usuario" entities.USER false None]> ∅)
    1700000001000000 usuario_token = RaiseHTTP user_account_inactive.
Proof.
  assert (Hv : toy_verify_token default_settings toy_users_db 1700000001000000
                 usuario_token = Return (claims usuario_token))
    by (vm_compute; reflexivity).
  split.
  - apply (proj1 (proj2 (get_current_user_failures (hashlib_impl := Toy.hashlib)
             (pwd_context := Toy.crypt_context) (jose_impl := Toy.jose)
             default_settings toy_users_db ∅ 1700000001000000 usuario_token)
             (claims usuario_token) "usuario" Hv eq_refl)).
    reflexivity.
  - apply (proj2 (proj2 (get_current_user_failures (hashlib_impl := Toy.hashlib)
             (pwd_context := Toy.crypt_context) (jose_impl := Toy.jose)
             default_settings toy_users_db
             (<["usuario" := entities.mkUser "usuario" entities.USER false None]> ∅)
             1700000001000000 usuario_token)
             (claims usuario_token) "usuario" Hv eq_refl)
             (entities.mkUser "usuario" entities.USER false None)).
    + reflexivity.
    + reflexivity.
Defined.

Lemma require_admin_role_get_current_user_witness :
  exists t,
    toy_create_access_token default_settings (token_data "usuario" "admin") None
      1700000000000000 "jti-0" = Return t /\
    toy_verify_token default_settings toy_users_db 1700000001000000 t
      = Return (claims t) /\
    claims t !! "role" = Some (VStr "admin") /\
    bind (toy_get_current_user default_settings toy_users_db toy_repository
            1700000001000000 t) require_admin_role
      = RaiseHTTP admin_role_required.
Proof.
  apply (proj2 (require_admin_role_get_current_user (hashlib_impl := Toy.hashlib)
           (pwd_context := Toy.crypt_context) (jose_impl := Toy.jose)
           default_settings toy_users_db toy_repository 1700000001000000)
           "usuario"
           (mkDbUser "usuario" "user" (Toy.bcrypt "L0XuwPOdS5U") true (Toy.hexdigest "user"))
           usuario_entity "jti-0" 1700000000000000).
  - reflexivity.
  - discriminate.
  - reflexivity.
  - reflexivity.
  - reflexivity.
  - reflexivity.
  - reflexivity.
  - vm_compute. discriminate.
  - vm_compute. discriminate.
Defined.

Lemma authenticate_then_get_current_user_witness :
  exists res,
    toy_authenticate default_settings toy_repository "usuario" "L0XuwPOdS5U"
      1700000000000000 "jti-0" = Return (Some res) /\
    token_type res = "bearer" /\
    id_username (user res) = "usuario" /\
    id_role (user res) = entities.UserRole_value (entities.role usuario_entity) /\
    toy_get_current_user default_settings toy_users_db toy_repository
      1700000001000000 (access_token res) = Return usuario_entity /\
    bind (toy_get_current_user default_settings toy_users_db toy_repository
            1700000001000000 (access_token res)) require_user_role
      = Return usuario_entity.
Proof.
  apply (authenticate_then_get_current_user (hashlib_impl := Toy.hashlib)
           (pwd_context := Toy.crypt_context) (jose_impl := Toy.jose)
           default_settings toy_users_db toy_repository "usuario" "L0XuwPOdS5U"
           1700000000000000 "jti-0" 1700000001000000 usuario_entity
           (Toy.bcrypt "L0XuwPOdS5U")
           (mkDbUser "usuario" "user" (Toy.bcrypt "L0XuwPOdS5U") true (Toy.hexdigest "user"))).
  - reflexivity.
  - reflexivity.
  - reflexivity.
  - discriminate.
  - reflexivity.
  - reflexivity.
  - discriminate.
  - reflexivity.
  - reflexivity.
  - reflexivity.
  - vm_compute. discriminate.
  - vm_compute. discriminate.
Defined.

Lemma create_spec_witness :
  (snd (fake_user_repository.create toy_repository maria_entity) = Return maria_entity /\
   get_by_username (fst (fake_user_repository.create toy_repository maria_entity))
     "maria" = Some maria_entity /\
   forall k, k <> "maria" ->
     get_by_username (fst (fake_user_repository.create toy_repository maria_entity)) k
       = get_by_username toy_repository k) /\
  fake_user_repository.create toy_repository usuario_entity
    = (toy_repository, RaisePy "ValueError").
Proof.
  split.
  - apply (proj1 (create_spec toy_repository maria_entity)). reflexivity.
  - apply (proj2 (create_spec toy_repository usuario_entity) usuario_entity).
    reflexivity.
Defined.

Lemma update_spec_witness :
  (snd (fake_user_repository.update toy_repository usuario_entity)
     = Return usuario_entity /\
   get_by_username (fst (fake_user_repository.update toy_repository usuario_entity))
     "usuario" = Some usuario_entity /\
   dom (fst (fake_user_repository.update toy_repository usuario_entity))
     = dom toy_repository /\
   forall k, k <> "usuario" ->
     get_by_username (fst (fake_user_repository.update toy_repository usuario_entity)) k
       = get_by_username toy_repository k) /\
  fake_user_repository.update toy_repository maria_entity
    = (toy_repository, RaisePy "ValueError").
Proof.
  split.
  - apply (proj1 (update_spec toy_repository usuario_entity) usuario_entity).
    reflexivity.
  - apply (proj1 (proj2 (update_spec toy_repository maria_entity))). reflexivity.
Defined.

Lemma delete_spec_witness :
  fake_user_repository.delete
    (fst (fake_user_repository.create toy_repository maria_entity)) "maria"
  = (toy_repository, true).
Proof.
  apply (proj2 (proj2 (proj2 (proj2 (delete_spec toy_repository "maria"))))
           maria_entity).
  - reflexivity.
  - reflexivity.
Defined.

Lemma keyed_by_username_invariant_witness :
  fake_user_repository.keyed_by_username
    (fst (fake_user_repository.create toy_repository maria_entity)) /\
  fake_user_repository.keyed_by_username
    (fst (fake_user_repository.update toy_repository maria_entity)) /\
  fake_user_repository.keyed_by_username
    (fst (fake_user_repository.delete toy_repository "usuario")).
Proof.
  apply (proj2 (keyed_by_username_invariant (pwd_context := Toy.crypt_context)
                  toy_repository maria_entity "usuario")).
  apply (proj1 (keyed_by_username_invariant (pwd_context := Toy.crypt_context)
                  toy_repository maria_entity "usuario")).
Defined.

Lemma authenticate_spec_witness :
  (toy_authenticate default_settings toy_repository "usuario" "wrong"
     1700000000000000 "jti-0" = Return None <->
   toy_repository !! "usuario" = None \/
   exists entity, toy_repository !! "usuario" = Some entity /\
     (entities.is_active entity = false \/
      entities.password_hash entity = None \/
      entities.password_hash entity = Some "" \/
      exists hashed, entities.password_hash entity = Some hashed /\
                     toy_verify_password "wrong" hashed = Return false)) /\
  toy_authenticate default_settings toy_repository "usuario" nul_password
    1700000000000000 "jti-0" = RaisePy "ValueError".
Proof.
  split.
  - apply (proj1 (proj2 (authenticate_spec (hashlib_impl := Toy.hashlib)
             (pwd_context := Toy.crypt_context) (jose_impl := Toy.jose)
             default_settings toy_repository "usuario" "wrong" 1700000000000000
             "jti-0"))).
    reflexivity.
  - apply (proj2 (proj2 (authenticate_spec (hashlib_impl := Toy.hashlib)
             (pwd_context := Toy.crypt_context) (jose_impl := Toy.jose)
             default_settings toy_repository "usuario" nul_password 1700000000000000
             "jti-0")) usuario_entity (Toy.bcrypt "L0XuwPOdS5U") "ValueError").
    + reflexivity.
    + reflexivity.
    + reflexivity.
    + discriminate.
    + reflexivity.
Defined.


